(** * The spend pipeline of [wallet.js]

    A shallow embedding of the BitGo wallet accessor: the constructor,
    [getEncryptedUserKeychain], [createTransaction], [sendTransaction] and
    [sendCoins], with the collaborators they call (the [bitgo] client and the
    [TransactionBuilder]) kept abstract, and every collaborator call recorded
    in a trace.  The read accessors follow, and a second embedding of the
    spend in which the keychain records are objects in a store. *)

From Stdlib Require Import List String Bool Arith QArith Lia DecimalString.
From Equations Require Import Equations.
From Equations.Prop Require Import Logic.
Import ListNotations.

Close Scope Q_scope.
Open Scope string_scope.
Open Scope list_scope.

Set Warnings "-register-all".

(** ** JavaScript values *)

Module JS.

(** A JavaScript number: [NaN], an infinity, or a finite value.  Every
    finite double is a rational, and the only arithmetic the wallet does on
    numbers is the comparison with [0]. *)
Inductive number : Type :=
| NaN
| Infinity (negative : bool)
| Finite (q : Q).

(** Values that flow through [wallet.js].  An object is the list of its own
    properties, in insertion order. *)
Inductive value : Type :=
| VUndefined
| VNull
| VBoolean (b : bool)
| VNumber (n : number)
| VString (s : string)
| VObject (properties : list (string * value)).

(** What a function call can do: return, or throw. *)
Inductive error : Type :=
| Error (message : string)       (* [new Error(message)] *)
| TypeError (message : string).  (* raised by the runtime *)

Inductive completion (A : Type) : Type :=
| Normal (a : A)
| Throw (e : error).
Arguments Normal {A} a.
Arguments Throw {A} e.

(** [typeof v] *)
Definition typeof (v : value) : string :=
  match v with
  | VUndefined => "undefined"
  | VNull => "object"
  | VBoolean _ => "boolean"
  | VNumber _ => "number"
  | VString _ => "string"
  | VObject _ => "object"
  end.

(** [n <= 0] on numbers: false for [NaN]. *)
Definition num_le0 (n : number) : bool :=
  match n with
  | NaN => false
  | Infinity negative => negative
  | Finite q => Qle_bool q 0%Q
  end.

(** The number held by a value whose [typeof] is ["number"]. *)
Definition number_of (v : value) : number :=
  match v with
  | VNumber n => n
  | _ => NaN
  end.

(** ToBoolean, as used by [if (v)], [!v] and [v || w]. *)
Definition truthy (v : value) : bool :=
  match v with
  | VUndefined | VNull => false
  | VBoolean b => b
  | VNumber NaN => false
  | VNumber (Infinity _) => true
  | VNumber (Finite q) => negb (Qeq_bool q 0%Q)
  | VString s => negb (s =? "")
  | VObject _ => true
  end.

Fixpoint lookup (name : string) (properties : list (string * value)) : value :=
  match properties with
  | [] => VUndefined
  | (k, v) :: rest => if k =? name then v else lookup name rest
  end.

Fixpoint update (name : string) (v : value) (properties : list (string * value))
  : list (string * value) :=
  match properties with
  | [] => [(name, v)]
  | (k, w) :: rest =>
      if k =? name then (k, v) :: rest else (k, w) :: update name v rest
  end.

(** [o.name]: reading a property of [undefined] or [null] is a [TypeError];
    a missing property reads as [undefined].  The properties a primitive
    inherits from its prototype are not among the names the wallet reads. *)
Definition get_prop (o : value) (name : string) : completion value :=
  match o with
  | VUndefined =>
      Throw (TypeError ("Cannot read property '" ++ name ++ "' of undefined")%string)
  | VNull =>
      Throw (TypeError ("Cannot read property '" ++ name ++ "' of null")%string)
  | VObject properties => Normal (lookup name properties)
  | _ => Normal VUndefined
  end.

(** [o.name = v], returning [o] after the assignment.  The file is not in
    strict mode: assigning to a property of a primitive does nothing. *)
Definition set_prop (o : value) (name : string) (v : value) : completion value :=
  match o with
  | VUndefined =>
      Throw (TypeError ("Cannot set property '" ++ name ++ "' of undefined")%string)
  | VNull =>
      Throw (TypeError ("Cannot set property '" ++ name ++ "' of null")%string)
  | VObject properties => Normal (VObject (update name v properties))
  | _ => Normal o
  end.

(** [v || {}] *)
Definition or_empty (v : value) : value :=
  if truthy v then v else VObject [].

End JS.
Import JS.

(** ** Promises, and the trace of collaborator calls *)

(** A promise, seen when it has settled.  One spend is a single sequential
    chain of continuations, so the order in which the collaborators are
    called is the order of the chain. *)
Inductive promise (A : Type) : Type :=
| Fulfilled (a : A)
| Rejected (e : error).
Arguments Fulfilled {A} a.
Arguments Rejected {A} e.

(** The calls that leave the wallet. *)
Inductive event : Type :=
| KeychainGet (params : value)                  (* [bitgo.keychains().get(params)] *)
| Decrypt (params : value)                      (* [bitgo.decrypt(params)] *)
| BuilderPrepare (recipient : value) (fee : value)
                                                (* [new TransactionBuilder(..).prepare()] *)
| BuilderSign (keychain : value)                (* [tb.sign(keychain)] *)
| Post (url : string) (body : value).           (* [bitgo.post(url).send(body)] *)

Definition is_fetch (e : event) : bool :=
  match e with KeychainGet _ => true | _ => false end.

Definition is_builder_call (e : event) : bool :=
  match e with BuilderPrepare _ _ | BuilderSign _ => true | _ => false end.

Definition is_broadcast (e : event) : bool :=
  match e with Post _ _ => true | _ => false end.

(** A computation returns a result and the calls it made, in order. *)
Definition Eff (A : Type) : Type := (A * list event)%type.

Definition ret {A} (a : A) : Eff A := (a, []).

Definition bind {A B} (m : Eff A) (f : A -> Eff B) : Eff B :=
  let (a, t) := m in
  let (b, t') := f a in
  (b, t ++ t').

(** A call to a collaborator: its answer, and the call in the trace. *)
Definition call {A} (e : event) (answer : A) : Eff A := (answer, [e]).

Definition throw {A} (e : error) : Eff (completion A) := ret (Throw e).

(** Sequencing of statements: a [throw] skips the rest. *)
Definition bindC {A B} (m : Eff (completion A)) (f : A -> Eff (completion B))
  : Eff (completion B) :=
  bind m (fun c =>
    match c with
    | Normal a => f a
    | Throw e => ret (Throw e)
    end).

Notation "x <- m ;; k" := (bind m (fun x => k))
  (at level 100, m at next level, right associativity).
Notation "x <~ m ;; k" := (bindC m (fun x => k))
  (at level 100, m at next level, right associativity).

(** What a continuation leaves in the promise that [then] returns: what it
    throws rejects the promise, a promise it returns is adopted, and a plain
    value it returns ([Normal (Fulfilled v)]) fulfils it. *)
Definition settled {A} (c : completion (promise A)) : promise A :=
  match c with
  | Normal q => q
  | Throw e => Rejected e
  end.

(** [p.then(f)]: [f] runs on the value of a fulfilled promise; a rejection
    skips [f]. *)
Definition then_ {A B} (p : promise A) (f : A -> Eff (completion (promise B)))
  : Eff (promise B) :=
  match p with
  | Fulfilled a =>
      c <- f a ;;
      ret (settled c)
  | Rejected e => ret (Rejected e)
  end.

(** [p.nodeify(callback)] with no callback given: the promise itself. *)
Definition nodeify {A} (p : promise A) : promise A := p.

(** ** Collaborators *)

(** The [bitgo] client a wallet is built on: the methods [wallet.js] calls.
    A method returns (here, a settled promise or a plain value) or throws. *)
Record BitGo : Type := {
  url : string -> string;
  keychains_get : value -> completion (promise value);
  decrypt : value -> completion value;
  post : string -> value -> completion (promise value)
}.

(** The wallet data a [Wallet] is constructed from. *)
Record WalletPrivate : Type := {
  private_keychains : option (list value)   (* [None]: no such property *)
}.

Record WalletData : Type := {
  id : value;
  label : value;
  balance : value;
  pendingBalance : value;
  availableBalance : value;
  wallet_type : value;
  private_ : option WalletPrivate           (* [None]: no [private] property *)
}.

(** The [Wallet] object: the fields the constructor sets. *)
Record Wallet : Type := {
  bitgo : BitGo;
  wallet : WalletData;
  keychains : option (list value)           (* [None]: [undefined] *)
}.

(** The [TransactionBuilder] class: [prepare] stands for
    [new TransactionBuilder(wallet, recipient, fee).prepare()], [sign] for
    [tb.sign(keychain)], which yields a builder or an empty ([None]) result,
    [tb_tx] for [tb.tx()] and [tb_fee] for [tb.fee]. *)
Record TransactionBuilder : Type := {
  builder_state : Type;
  prepare : Wallet -> value -> value -> completion (promise builder_state);
  sign : builder_state -> value -> completion (promise (option builder_state));
  tb_tx : builder_state -> completion value;
  tb_fee : builder_state -> value
}.

(** The error of a request field that is missing or ill-typed. *)
Definition ValidationError (field : string) : error :=
  Error ("Missing parameter: " ++ field)%string.

(** A field that is present, as a string. *)
Definition present_string (v : value) : bool :=
  match v with
  | VString s => negb (s =? "")
  | _ => false
  end.

(** Modelled from the spec: [common.validateParams] ([common.js] is not among
    the sources).  Every expected field of the request has to be present, as
    a string; a missing or ill-typed field is a validation error, thrown
    synchronously.  No callback is passed throughout this development. *)
Fixpoint validateParams (params : value) (expected optional : list string)
  : completion unit :=
  match expected with
  | [] => Normal tt
  | name :: rest =>
      match get_prop params name with
      | Normal v =>
          if present_string v then validateParams params rest optional
          else Throw (ValidationError name)
      | Throw e => Throw e
      end
  end.

(** [self.reject(message, callback)].  [wallet.js] puts no [reject] on
    [Wallet.prototype] and the constructor sets none on the object, so
    [self.reject] is [undefined] and the call throws.  The message passed to
    it is lost. *)
Definition reject {A} (message : string) : completion (promise A) :=
  Throw (TypeError "self.reject is not a function").

(** ** The wallet *)

(** [new Wallet(bitgo, wallet)] *)
Definition new_Wallet (bitgo : BitGo) (wallet : WalletData) : Wallet :=
  {| bitgo := bitgo;
     wallet := wallet;
     keychains := match private_ wallet with
                  | Some p => private_keychains p
                  | None => Some []
                  end |}.

(** [!self.keychains || index >= self.keychains.length] *)
Definition exhausted (self : Wallet) (index : nat) : bool :=
  match keychains self with
  | None => true
  | Some ks => (List.length ks <=? index)%nat
  end.

(** [self.keychains[index]] *)
Definition keychain_at (self : Wallet) (index : nat) : value :=
  match keychains self with
  | None => VUndefined
  | Some ks => nth index ks VUndefined
  end.

Definition keychain_count (self : Wallet) : nat :=
  match keychains self with
  | None => 0
  | Some ks => List.length ks
  end.

(** The local function [tryKeyChain] of [getEncryptedUserKeychain]. *)
Equations? tryKeyChain (self : Wallet) (index : nat)
  : Eff (completion (promise value)) by wf (keychain_count self - index) lt :=
  tryKeyChain self index with inspect (exhausted self index) := {
    | exist _ true _ => ret (reject "No encrypted keychains on this wallet.")
    | exist _ false more =>
        xpub <~ ret (get_prop (keychain_at self index) "xpub") ;;
        let params := VObject [("xpub", xpub)] in
        p <~ call (KeychainGet params) (keychains_get (bitgo self) params) ;;
        q <- then_ p (fun keychain =>
               encryptedXprv <~ ret (get_prop keychain "encryptedXprv") ;;
               if truthy encryptedXprv then ret (Normal (Fulfilled keychain))
               else tryKeyChain self (index + 1)) ;;
        ret (Normal (nodeify q)) }.
Proof.
  unfold exhausted, keychain_count in *.
  destruct (keychains self) as [ks|]; [|discriminate].
  apply Nat.leb_gt in more. lia.
Qed.

(** [Wallet.prototype.getEncryptedUserKeychain] *)
Definition getEncryptedUserKeychain (self : Wallet) (params : value)
  : Eff (completion (promise value)) :=
  let params := or_empty params in
  _ <~ ret (validateParams params [] []) ;;
  tryKeyChain self 0.

(** [Wallet.prototype.sendTransaction] *)
Definition sendTransaction (self : Wallet) (params : value)
  : Eff (completion (promise value)) :=
  let params := or_empty params in
  _ <~ ret (validateParams params ["tx"] []) ;;
  tx <~ ret (get_prop params "tx") ;;
  let payload := VObject [("tx", tx)] in
  p <~ call (Post (url (bitgo self) "/tx/send") payload)
            (post (bitgo self) (url (bitgo self) "/tx/send") payload) ;;
  q <- then_ p (fun body =>
         transaction <~ ret (get_prop body "transaction") ;;
         transactionHash <~ ret (get_prop body "transactionHash") ;;
         ret (Normal (Fulfilled
                (VObject [("tx", transaction); ("hash", transactionHash)])))) ;;
  ret (Normal (nodeify q)).

Section WithTransactionBuilder.

Variable builder : TransactionBuilder.

(** [Wallet.prototype.createTransaction] *)
Definition createTransaction (self : Wallet) (params : value)
  : Eff (completion (promise value)) :=
  let params := or_empty params in
  _ <~ ret (validateParams params ["address"] []) ;;
  amount <~ ret (get_prop params "amount") ;;
  fee <~ ret (get_prop params "fee") ;;
  keychain <~ ret (get_prop params "keychain") ;;
  if negb (typeof amount =? "number")
     || (negb (typeof fee =? "number") && negb (typeof fee =? "undefined"))
     || negb (typeof keychain =? "object")
  then throw (Error "invalid argument")
  else if num_le0 (number_of amount)
  then throw (Error "must send positive number of Satoshis!")
  else
    address <~ ret (get_prop params "address") ;;
    let recipient := VObject [("address", address); ("amount", amount)] in
    p <~ call (BuilderPrepare recipient fee) (prepare builder self recipient fee) ;;
    p <- then_ p (fun tb =>
           call (BuilderSign keychain) (sign builder tb keychain)) ;;
    p <- then_ p (fun tb =>
           match tb with
           | Some tb =>
               tx <~ ret (tb_tx builder tb) ;;
               ret (Normal (Fulfilled
                      (VObject [("tx", tx); ("fee", tb_fee builder tb)])))
           | None => ret (Normal (Fulfilled VUndefined))
           end) ;;
    ret (Normal (nodeify p)).

(** The first continuation of [sendCoins]: decrypt the user key, then create
    and sign the transaction. *)
Definition decryptAndCreate (self : Wallet) (params keychain : value)
  : Eff (completion (promise value)) :=
  unlocked <- (password <~ ret (get_prop params "walletPassphrase") ;;
               opaque <~ ret (get_prop keychain "encryptedXprv") ;;
               let secret := VObject [("password", password); ("opaque", opaque)] in
               xprv <~ call (Decrypt secret) (decrypt (bitgo self) secret) ;;
               ret (set_prop keychain "xprv" xprv)) ;;
  match unlocked with
  | Throw _ => ret (reject "Unable to decrypt user keychain")
  | Normal keychain =>
      address <~ ret (get_prop params "address") ;;
      amount <~ ret (get_prop params "amount") ;;
      createTransaction self
        (VObject [("address", address); ("amount", amount); ("keychain", keychain)])
  end.

(** The variable [transaction] of [sendCoins] once the promise of the first
    continuation has settled: the second continuation assigns its argument
    to it when it runs, that is, when that promise is fulfilled. *)
Definition assigned (p : promise value) : value :=
  match p with
  | Fulfilled result => result
  | Rejected _ => VUndefined
  end.

(** The second continuation of [sendCoins], after the assignment: send the
    transaction. *)
Definition sendAssembled (self : Wallet) (transaction : value)
  : Eff (completion (promise value)) :=
  tx <~ ret (get_prop transaction "tx") ;;
  sendTransaction self (VObject [("tx", tx)]).

(** The third continuation of [sendCoins]: the result of the spend. *)
Definition report (transaction result : value)
  : Eff (completion (promise value)) :=
  tx <~ ret (get_prop result "tx") ;;
  hash <~ ret (get_prop result "hash") ;;
  fee <~ ret (get_prop transaction "fee") ;;
  ret (Normal (Fulfilled (VObject [("tx", tx); ("hash", hash); ("fee", fee)]))).

(** [Wallet.prototype.sendCoins] *)
Definition sendCoins (self : Wallet) (params : value)
  : Eff (completion (promise value)) :=
  let params := or_empty params in
  _ <~ ret (validateParams params ["address"; "walletPassphrase"] []) ;;
  amount <~ ret (get_prop params "amount") ;;
  if negb (typeof amount =? "number")
  then throw (Error "invalid argument for amount - number expected")
  else if num_le0 (number_of amount)
  then throw (Error "must send positive number of Satoshis!")
  else
    p <~ getEncryptedUserKeychain self VUndefined ;;
    p <- then_ p (decryptAndCreate self params) ;;
    let transaction := assigned p in
    p <- then_ p (sendAssembled self) ;;
    p <- then_ p (report transaction) ;;
    ret (Normal (nodeify p)).

End WithTransactionBuilder.

(** ** Vocabulary of the specification *)

(** The errors of the spec's taxonomy, with the messages [wallet.js] gives
    them. *)
Definition InvalidAmountError : error :=
  Error "invalid argument for amount - number expected".
Definition AmountError : error := Error "must send positive number of Satoshis!".
Definition NoKeychainFound : error := Error "No encrypted keychains on this wallet.".
Definition DecryptionError : error := Error "Unable to decrypt user keychain".

(** The error a caller gets where [wallet.js] means to raise one of the last
    two: both are handed to [self.reject], and that call throws. *)
Definition NotAFunction : error := TypeError "self.reject is not a function".

(** [params.name] once [params] has been defaulted to [{}]. *)
Definition field (params : value) (name : string) : value :=
  match get_prop (or_empty params) name with
  | Normal v => v
  | Throw _ => VUndefined
  end.

(** The record the Keychain Service answers with for a candidate, when it
    answers with one. *)
Definition fetch_record (b : BitGo) (candidate : value) : option value :=
  match get_prop candidate "xpub" with
  | Normal xpub =>
      match keychains_get b (VObject [("xpub", xpub)]) with
      | Normal (Fulfilled record) => Some record
      | _ => None
      end
  | Throw _ => None
  end.

(** The call that fetches a candidate. *)
Definition fetch_event (candidate : value) : event :=
  KeychainGet (VObject [("xpub", field candidate "xpub")]).

(** Whether a fetched record carries encrypted private material. *)
Definition carries_encryptedXprv (record : value) : option bool :=
  match get_prop record "encryptedXprv" with
  | Normal e => Some (truthy e)
  | Throw _ => None
  end.

(** A candidate for which a record is fetched that has no [encryptedXprv]. *)
Definition unencrypted_candidate (b : BitGo) (candidate : value) : bool :=
  match fetch_record b candidate with
  | Some record =>
      match carries_encryptedXprv record with
      | Some false => true
      | _ => false
      end
  | None => false
  end.

(** A request that passes the synchronous checks of [sendCoins]: address and
    passphrase present, and an amount that is a number and not [<= 0]. *)
Definition required_present (params : value) : bool :=
  present_string (field params "address")
  && present_string (field params "walletPassphrase").

Definition valid_request (params : value) : bool :=
  required_present params
  && match field params "amount" with
     | VNumber n => negb (num_le0 n)
     | _ => false
     end.

(** The argument of the decryption primitive for a request and a keychain. *)
Definition secret_of (params keychain : value) : value :=
  VObject [("password", field params "walletPassphrase");
           ("opaque", field keychain "encryptedXprv")].

(** The keychain after [keychain.xprv = xprv]. *)
Definition unlocked (keychain xprv : value) : value :=
  match set_prop keychain "xprv" xprv with
  | Normal k => k
  | Throw _ => keychain
  end.

(** The argument [sendCoins] passes to [createTransaction]. *)
Definition assembly_params (params keychain : value) : value :=
  VObject [("address", field params "address");
           ("amount", field params "amount");
           ("keychain", keychain)].

(** The recipient [createTransaction] hands to the builder. *)
Definition recipient_of (params : value) : value :=
  VObject [("address", field params "address");
           ("amount", field params "amount")].

(** The body [sendTransaction] posts. *)
Definition payload_of (transaction : value) : value :=
  VObject [("tx", field transaction "tx")].

(** ** A concrete service, builder and wallets *)

Module Scenario.

Definition refA : value := VObject [("xpub", VString "xpubA")].
Definition refB : value := VObject [("xpub", VString "xpubB")].
Definition refC : value := VObject [("xpub", VString "xpubC")].
Definition ref1 : value :=
  VObject [("xpub", VString "xpub1"); ("encryptedXprv", VString "enc1")].

Definition recordA : value := VObject [("xpub", VString "xpubA")].
Definition recordB : value :=
  VObject [("xpub", VString "xpubB"); ("encryptedXprv", VString "encB")].
Definition recordC : value :=
  VObject [("xpub", VString "xpubC"); ("encryptedXprv", VString "encC")].
Definition record1 : value :=
  VObject [("xpub", VString "xpub1"); ("encryptedXprv", VString "enc1")].

(** The Keychain Service: one record per known xpub. *)
Definition service (params : value) : completion (promise value) :=
  match field params "xpub" with
  | VString xpub =>
      if xpub =? "xpubA" then Normal (Fulfilled recordA)
      else if xpub =? "xpubB" then Normal (Fulfilled recordB)
      else if xpub =? "xpubC" then Normal (Fulfilled recordC)
      else if xpub =? "xpub1" then Normal (Fulfilled record1)
      else Normal (Rejected (Error "not found"))
  | _ => Throw (Error "Expecting parameter string: xpub")
  end.

(** The decryption primitive: one passphrase opens every blob; its own
    errors depend on what it was given. *)
Definition primitive (params : value) : completion value :=
  match field params "password" with
  | VString password =>
      if password =? "correct" then Normal (VString "xprv")
      else if password =? "wrong" then Throw (Error "ccm: tag doesn't match")
      else Throw (Error "json decode: this isn't json!")
  | _ => Throw (TypeError "password must be a string")
  end.

Definition broadcast (response : value) (_ : string) (_ : value)
  : completion (promise value) :=
  Normal (Fulfilled response).

Definition receipt : value :=
  VObject [("transaction", VString "deadbeef"); ("transactionHash", VString "h1")].

(** A response that reports a fee of its own. *)
Definition receipt_with_fee : value :=
  VObject [("transaction", VString "deadbeef"); ("transactionHash", VString "h1");
           ("fee", VNumber (Finite 7))].

Definition client (response : value) : BitGo :=
  {| url := fun path => ("https://test.bitgo.com/api/v1" ++ path)%string;
     keychains_get := service;
     decrypt := primitive;
     post := broadcast response |}.

Definition data (private : option WalletPrivate) : WalletData :=
  {| id := VString "2Mxyz...";
     label := VString "my wallet";
     balance := VNumber (Finite 500000);
     pendingBalance := VNumber (Finite 0);
     availableBalance := VNumber (Finite 500000);
     wallet_type := VString "safehd";
     private_ := private |}.

Definition with_keychains (ks : list value) : option WalletPrivate :=
  Some {| private_keychains := Some ks |}.

(** A builder whose [sign] completes the transaction, and one whose [sign]
    reports that none was produced. *)
Definition signing_builder : TransactionBuilder :=
  {| builder_state := bool;
     prepare := fun _ _ _ => Normal (Fulfilled false);
     sign := fun _ _ => Normal (Fulfilled (Some true));
     tb_tx := fun _ => Normal (VString "deadbeef");
     tb_fee := fun _ => VNumber (Finite 1000) |}.

Definition waiting_builder : TransactionBuilder :=
  {| builder_state := bool;
     prepare := fun _ _ _ => Normal (Fulfilled false);
     sign := fun _ _ => Normal (Fulfilled None);
     tb_tx := fun _ => Normal (VString "deadbeef");
     tb_fee := fun _ => VNumber (Finite 1000) |}.

Definition request (amount : value) (passphrase : string) : value :=
  VObject [("address", VString "1ABC"); ("amount", amount);
           ("walletPassphrase", VString passphrase)].

(** Wallets on that client. *)
Definition wallet_of (ks : list value) : Wallet :=
  new_Wallet (client receipt) (data (with_keychains ks)).

Definition wallet1 : Wallet := wallet_of [ref1].
Definition walletABC : Wallet := wallet_of [refA; refB; refC].
Definition walletAB : Wallet := wallet_of [refA; refB].
Definition walletAA : Wallet := wallet_of [refA; refA].
Definition wallet_empty : Wallet := wallet_of [].

(** A wallet whose data has no [private] field. *)
Definition wallet_bare : Wallet := new_Wallet (client receipt) (data None).

(** The wallet of the spec's scenario, on an endpoint that reports a fee. *)
Definition wallet1_fee : Wallet :=
  new_Wallet (client receipt_with_fee) (data (with_keychains [ref1])).

End Scenario.

(** ** The other requests of a wallet *)

(** What the runtime does with numbers and is left open here: the string of
    a finite number that is not a safe integer, which is the shortest
    decimal that reads back as the same double, and the product of two
    numbers in floating point. *)
Record Runtime : Type := {
  finite_to_string : Q -> string;
  multiply : number -> number -> number
}.

(** ToString on numbers.  A safe integer, one of magnitude below [2^53],
    prints as its decimal digits: every integer of that range is a double,
    so no shorter decimal reads back as it.  A larger integer does not: the
    double [2^64] prints as [18446744073709552000]. *)
Definition number_to_string (rt : Runtime) (n : number) : string :=
  match n with
  | NaN => "NaN"
  | Infinity false => "Infinity"
  | Infinity true => "-Infinity"
  | Finite q =>
      if ((Qden (Qred q) =? 1)%positive
          && (Z.abs (Qnum (Qred q)) <? 2 ^ 53)%Z)%bool
      then NilZero.string_of_int (Z.to_int (Qnum (Qred q)))
      else finite_to_string rt q
  end.

(** ToString, as applied by [+] to the right of a string. *)
Definition to_string (rt : Runtime) (v : value) : string :=
  match v with
  | VUndefined => "undefined"
  | VNull => "null"
  | VBoolean true => "true"
  | VBoolean false => "false"
  | VNumber n => number_to_string rt n
  | VString s => s
  | VObject _ => "[object Object]"
  end.

(** The [get] and [del] methods of the [bitgo] client; [get] is given the
    field that [result(field)] asks for, if any. *)
Record Transport : Type := {
  get : string -> option string -> completion (promise value);
  del : string -> completion (promise value)
}.

(** The requests of the read accessors. *)
Inductive request : Type :=
| GET (address : string) (result : option string)
| POST (address : string) (body : value)
| DELETE (address : string).

(** [Wallet.prototype.address] *)
Definition address (self : Wallet) : value := id (wallet self).

Section Reads.

Variable rt : Runtime.
Variable transport : Transport.

(** [Wallet.prototype.url] *)
Definition Wallet_url (self : Wallet) (extra : value) : string :=
  let extra := if truthy extra then extra else VString "" in
  url (bitgo self)
    ("/wallet/" ++ to_string rt (address self) ++ to_string rt extra)%string.

(** [Wallet.prototype.createAddress] *)
Definition createAddress (self : Wallet) (params : value)
  : completion (promise value) * list request :=
  let params := or_empty params in
  match validateParams params [] [] with
  | Throw e => (Throw e, [])
  | Normal _ =>
      match get_prop params "chain" with
      | Throw e => (Throw e, [])
      | Normal chain =>
          let chain := if truthy chain then chain else VNumber (Finite 0) in
          let target :=
            Wallet_url self (VString ("/address/" ++ to_string rt chain)%string) in
          (post (bitgo self) target (VObject []), [POST target (VObject [])])
      end
  end.

(** [Wallet.prototype.addresses] *)
Definition addresses (self : Wallet) (params : value)
  : completion (promise value) * list request :=
  let params := or_empty params in
  match validateParams params [] [] with
  | Throw e => (Throw e, [])
  | Normal _ =>
      let target := Wallet_url self (VString "/addresses") in
      match get_prop params "limit" with
      | Throw e => (Throw e, [])
      | Normal limit =>
          if truthy limit then
            if negb (typeof limit =? "number")
            then (Throw (Error "invalid limit argument, expecting number"), [])
            else
              let target := (target ++ "?limit=" ++ to_string rt limit)%string in
              (get transport target None, [GET target None])
          else (get transport target None, [GET target None])
      end
  end.

(** [Wallet.prototype.delete] *)
Definition delete (self : Wallet) (params : value)
  : completion (promise value) * list request :=
  let params := or_empty params in
  match validateParams params [] [] with
  | Throw e => (Throw e, [])
  | Normal _ =>
      let target := Wallet_url self VUndefined in
      (del transport target, [DELETE target])
  end.

(** [Wallet.prototype.unspents] *)
Definition unspents (self : Wallet) (params : value)
  : completion (promise value) * list request :=
  let params := or_empty params in
  match validateParams params [] [] with
  | Throw e => (Throw e, [])
  | Normal _ =>
      let target := Wallet_url self (VString "/unspents") in
      match get_prop params "btcLimit" with
      | Throw e => (Throw e, [])
      | Normal btcLimit =>
          if truthy btcLimit then
            match get_prop params "limit" with
            | Throw e => (Throw e, [])
            | Normal limit =>
                if negb (typeof limit =? "number")
                then (Throw (Error "invalid argument"), [])
                else
                  let scaled :=
                    VNumber (multiply rt (number_of limit) (Finite 100000000)) in
                  let target :=
                    (target ++ "?limit=" ++ to_string rt scaled)%string in
                  (get transport target (Some "unspents"),
                   [GET target (Some "unspents")])
            end
          else (get transport target (Some "unspents"),
                [GET target (Some "unspents")])
      end
  end.

(** [Wallet.prototype.transactions] *)
Definition transactions (self : Wallet) (params : value)
  : completion (promise value) * list request :=
  let params := or_empty params in
  match validateParams params [] [] with
  | Throw e => (Throw e, [])
  | Normal _ =>
      let target := Wallet_url self (VString "/tx") in
      (get transport target None, [GET target None])
  end.

End Reads.

(** A runtime and a transport to run the read accessors on. *)
Module Reading.

(** A runtime for requests with small integers, whose products are exact
    and print as their digits.  On other numbers it is not a JavaScript
    engine: it multiplies exactly and prints a numerator. *)
Definition runtime : Runtime :=
  {| finite_to_string := fun q => NilZero.string_of_int (Z.to_int (Qnum q));
     multiply := fun a b =>
       match a, b with
       | Finite x, Finite y => Finite (Qred (x * y))
       | _, _ => NaN
       end |}.

(** A transport that answers every request with the same listing. *)
Definition listing : value := VObject [("count", VNumber (Finite 0))].

Definition transport : Transport :=
  {| get := fun _ _ => Normal (Fulfilled listing);
     del := fun _ => Normal (Fulfilled (VObject [])) |}.

End Reading.

(** The candidates of a wallet: its keychain list, none when it has no
    list. *)
Definition candidates (self : Wallet) : list value :=
  match keychains self with
  | Some ks => ks
  | None => []
  end.

(** ** The order of the calls of a spend *)

(** Where a spend is, judged by the calls it has made. *)
Inductive stage : Type :=
| Idle
| ResolvingKeychain
| Unlocking
| Preparing
| Signing
| Broadcasting.

(** The stage after one more call, when that call may follow. *)
Definition next_stage (s : stage) (e : event) : option stage :=
  match s, e with
  | Idle, KeychainGet _ => Some ResolvingKeychain
  | ResolvingKeychain, KeychainGet _ => Some ResolvingKeychain
  | ResolvingKeychain, Decrypt _ => Some Unlocking
  | Unlocking, BuilderPrepare _ _ => Some Preparing
  | Preparing, BuilderSign _ => Some Signing
  | Signing, Post _ _ => Some Broadcasting
  | _, _ => None
  end.

(** A trace that, from a stage on, only makes calls that may follow. *)
Fixpoint in_order (s : stage) (t : list event) : bool :=
  match t with
  | [] => true
  | e :: rest =>
      match next_stage s e with
      | Some s' => in_order s' rest
      | None => false
      end
  end.

(** The request [createTransaction] accepts: address present, a number for
    the amount that is not [<= 0], a number or nothing for the fee, and a
    keychain whose [typeof] is ["object"]. *)
Definition accepted_by_createTransaction (params : value) : bool :=
  present_string (field params "address")
  && (typeof (field params "amount") =? "number")
  && ((typeof (field params "fee") =? "number")
      || (typeof (field params "fee") =? "undefined"))
  && (typeof (field params "keychain") =? "object")
  && negb (num_le0 (number_of (field params "amount"))).

(** Failing collaborators, for runs that stop half way. *)
Module Failures.

Definition outage : error := Error "503 Service Unavailable".

(** A Keychain Service that knows xpubA and is down for everything else. *)
Definition flaky_service (params : value) : completion (promise value) :=
  match field params "xpub" with
  | VString xpub =>
      if xpub =? "xpubA" then Normal (Fulfilled Scenario.recordA)
      else Normal (Rejected outage)
  | _ => Throw (Error "Expecting parameter string: xpub")
  end.

Definition flaky_client : BitGo :=
  {| url := fun path => ("https://test.bitgo.com/api/v1" ++ path)%string;
     keychains_get := flaky_service;
     decrypt := Scenario.primitive;
     post := Scenario.broadcast Scenario.receipt |}.

(** A client whose broadcast endpoint is down. *)
Definition offline_client : BitGo :=
  {| url := fun path => ("https://test.bitgo.com/api/v1" ++ path)%string;
     keychains_get := Scenario.service;
     decrypt := Scenario.primitive;
     post := fun _ _ => Normal (Rejected outage) |}.

Definition wallet_flaky : Wallet :=
  new_Wallet flaky_client
    (Scenario.data (Scenario.with_keychains [Scenario.refA; Scenario.refB;
                                             Scenario.refC])).

Definition wallet_offline : Wallet :=
  new_Wallet offline_client (Scenario.data (Scenario.with_keychains [Scenario.ref1])).

(** A wallet whose keychain list holds [null] entries. *)
Definition wallet_null_first : Wallet :=
  Scenario.wallet_of [VNull; Scenario.refB].

Definition wallet_null_second : Wallet :=
  Scenario.wallet_of [Scenario.refA; VNull; Scenario.refB].

(** Builders that fail while preparing, or while signing. *)
Definition unfunded : error := Error "Insufficient funds".

Definition unfunded_builder : TransactionBuilder :=
  {| builder_state := bool;
     prepare := fun _ _ _ => Normal (Rejected unfunded);
     sign := fun _ _ => Normal (Fulfilled (Some true));
     tb_tx := fun _ => Normal (VString "deadbeef");
     tb_fee := fun _ => VNumber (Finite 1000) |}.

Definition unsigning_builder : TransactionBuilder :=
  {| builder_state := bool;
     prepare := fun _ _ _ => Normal (Fulfilled false);
     sign := fun _ _ => Normal (Rejected (Error "bad xprv"));
     tb_tx := fun _ => Normal (VString "deadbeef");
     tb_fee := fun _ => VNumber (Finite 1000) |}.

End Failures.

(** Requests for the assembler and the broadcaster. *)
Module Requests.

(** A request to [createTransaction] that names a fee of its own. *)
Definition assemble_with_fee : value :=
  VObject [("address", VString "1ABC");
           ("amount", VNumber (Finite 100000));
           ("fee", VNumber (Finite 5));
           ("keychain", unlocked Scenario.record1 (VString "xprv"))].

(** A spend request that names a fee and a few more things. *)
Definition spend_with_fee : value :=
  VObject [("fee", VNumber (Finite 5));
           ("address", VString "1ABC");
           ("amount", VNumber (Finite 100000));
           ("walletPassphrase", VString "correct");
           ("keychain", Scenario.recordC)].

Definition send_deadbeef : value := VObject [("tx", VString "deadbeef")].

(** A response with neither [transaction] nor [transactionHash]. *)
Definition bare_response : value := VObject [("status", VString "accepted")].

Definition wallet_bare_response : Wallet :=
  new_Wallet (Scenario.client bare_response)
    (Scenario.data (Scenario.with_keychains [Scenario.ref1])).

End Requests.

(** ** Keychain records as objects in a store *)

(** [sendCoins] assigns to a property of the keychain the resolver gave it.
    The keychain is an object: the assignment changes it where it is, for
    everyone who holds it.  To follow that, the records of the Keychain
    Service are kept in a store, the service and the resolver return the
    location of one, and the assignment updates the store.  The wallet
    assigns to nothing else, so every other value stays a plain value, and
    the functions below are those above with the store passed along.  The
    builder and the broadcast endpoint are as above: they read what they
    are given and leave the store alone. *)
Definition location : Type := nat.
Definition store : Type := list value.

(** The object at a location. *)
Definition deref (h : store) (l : location) : value := nth l h VUndefined.

(** The store with the object at a location replaced. *)
Fixpoint replace (l : location) (record : value) (h : store) : store :=
  match h, l with
  | [], _ => []
  | _ :: rest, 0 => record :: rest
  | first :: rest, S l => first :: replace l record rest
  end.

(** A computation on a store returns a result and the store it leaves, and
    the calls it made. *)
Definition Run (A : Type) : Type := store -> Eff (A * store).

Definition outcome {A} (r : Eff (A * store)) : A := fst (fst r).
Definition store_after {A} (r : Eff (A * store)) : store := snd (fst r).
Definition calls {A} (r : Eff (A * store)) : list event := snd r.

Definition ret_in {A} (a : A) : Run A := fun h => ret (a, h).

Definition bind_in {A B} (m : Run A) (f : A -> Run B) : Run B :=
  fun h => r <- m h ;; f (fst r) (snd r).

Definition bindC_in {A B} (m : Run (completion A)) (f : A -> Run (completion B))
  : Run (completion B) :=
  bind_in m (fun c =>
    match c with
    | Normal a => f a
    | Throw e => ret_in (Throw e)
    end).

Notation "x <-- m ;; k" := (bind_in m (fun x => k))
  (at level 100, m at next level, right associativity).
Notation "x <~~ m ;; k" := (bindC_in m (fun x => k))
  (at level 100, m at next level, right associativity).

(** A computation that does not touch the store. *)
Definition lift {A} (m : Eff A) : Run A := fun h => ((fst m, h), snd m).

(** [p.then(f)] *)
Definition then_in {A B} (p : promise A) (f : A -> Run (completion (promise B)))
  : Run (promise B) :=
  match p with
  | Fulfilled a =>
      c <-- f a ;;
      ret_in (settled c)
  | Rejected e => ret_in (Rejected e)
  end.

(** [o.name], for the object [o] at a location. *)
Definition read (l : location) (name : string) : Run (completion value) :=
  fun h => ret (get_prop (deref h l) name, h).

(** [o.name = v], for the object [o] at a location: the object is changed
    in place. *)
Definition write (l : location) (name : string) (v : value)
  : Run (completion unit) :=
  fun h =>
    match set_prop (deref h l) name v with
    | Normal record => ret (Normal tt, replace l record h)
    | Throw e => ret (Throw e, h)
    end.

(** The Keychain Service, when its records are objects: it answers with the
    location of a record.  Whether that is a new object or one it has
    handed out before, and what else it does to the store, is its own
    business. *)
Definition KeychainService : Type :=
  value -> store -> completion (promise location) * store.

(** The service that makes a new object of every record a [bitgo] client
    answers with, at the next free location. *)
Definition fresh_answers (b : BitGo) : KeychainService :=
  fun params h =>
    match keychains_get b params with
    | Normal (Fulfilled record) =>
        (Normal (Fulfilled (List.length h)), h ++ [record])
    | Normal (Rejected e) => (Normal (Rejected e), h)
    | Throw e => (Throw e, h)
    end.

Section InStore.

Variable service : KeychainService.
Variable builder : TransactionBuilder.

(** [bitgo.keychains().get(params)] *)
Definition fetch (params : value) : Run (completion (promise location)) :=
  fun h => call (KeychainGet params) (service params h).

(** The local function [tryKeyChain] of [getEncryptedUserKeychain]. *)
Equations? tryKeyChain_in_store (self : Wallet) (index : nat) (h : store)
  : Eff (completion (promise location) * store)
  by wf (keychain_count self - index) lt :=
  tryKeyChain_in_store self index h with inspect (exhausted self index) := {
    | exist _ true _ =>
        ret_in (reject "No encrypted keychains on this wallet.") h
    | exist _ false more =>
        (xpub <~~ ret_in (get_prop (keychain_at self index) "xpub") ;;
         let params := VObject [("xpub", xpub)] in
         p <~~ fetch params ;;
         q <-- then_in p (fun keychain =>
                 encryptedXprv <~~ read keychain "encryptedXprv" ;;
                 if truthy encryptedXprv then ret_in (Normal (Fulfilled keychain))
                 else fun h => tryKeyChain_in_store self (index + 1) h) ;;
         ret_in (Normal (nodeify q))) h }.
Proof.
  unfold exhausted, keychain_count in *.
  destruct (keychains self) as [ks|]; [|discriminate].
  apply Nat.leb_gt in more. lia.
Qed.

(** [Wallet.prototype.getEncryptedUserKeychain] *)
Definition getEncryptedUserKeychain_in_store (self : Wallet) (params : value)
  : Run (completion (promise location)) :=
  let params := or_empty params in
  _ <~~ ret_in (validateParams params [] []) ;;
  tryKeyChain_in_store self 0.

(** [Wallet.prototype.createTransaction], called on
    [{address: address, amount: amount, keychain: keychain}] with [keychain]
    the object at a location.  It and the builder read the keychain and
    assign nothing: they get what the object holds at the call, and the
    store stays as it is. *)
Definition createTransaction_in_store (self : Wallet) (address amount : value)
           (keychain : location) : Run (completion (promise value)) :=
  fun h =>
    lift (createTransaction builder self
            (VObject [("address", address); ("amount", amount);
                      ("keychain", deref h keychain)])) h.

(** The first continuation of [sendCoins]: decrypt the user key into the
    keychain, then create and sign the transaction. *)
Definition decryptAndCreate_in_store (self : Wallet) (params : value)
           (keychain : location) : Run (completion (promise value)) :=
  unlocked <-- (password <~~ ret_in (get_prop params "walletPassphrase") ;;
                opaque <~~ read keychain "encryptedXprv" ;;
                let secret := VObject [("password", password); ("opaque", opaque)] in
                xprv <~~ lift (call (Decrypt secret) (decrypt (bitgo self) secret)) ;;
                write keychain "xprv" xprv) ;;
  match unlocked with
  | Throw _ => ret_in (reject "Unable to decrypt user keychain")
  | Normal _ =>
      address <~~ ret_in (get_prop params "address") ;;
      amount <~~ ret_in (get_prop params "amount") ;;
      createTransaction_in_store self address amount keychain
  end.

(** [Wallet.prototype.sendCoins] *)
Definition sendCoins_in_store (self : Wallet) (params : value)
  : Run (completion (promise value)) :=
  let params := or_empty params in
  _ <~~ ret_in (validateParams params ["address"; "walletPassphrase"] []) ;;
  amount <~~ ret_in (get_prop params "amount") ;;
  if negb (typeof amount =? "number")
  then ret_in (Throw (Error "invalid argument for amount - number expected"))
  else if num_le0 (number_of amount)
  then ret_in (Throw (Error "must send positive number of Satoshis!"))
  else
    p <~~ getEncryptedUserKeychain_in_store self VUndefined ;;
    p <-- then_in p (decryptAndCreate_in_store self params) ;;
    let transaction := assigned p in
    p <-- then_in p (fun result => lift (sendAssembled self result)) ;;
    p <-- then_in p (fun result => lift (report transaction result)) ;;
    ret_in (Normal (nodeify p)).

End InStore.




(** What a result of the resolver on the store stands for: the keychain at
    the location it names. *)
Definition erase (h : store) (c : completion (promise location))
  : completion (promise value) :=
  match c with
  | Normal (Fulfilled l) => Normal (Fulfilled (deref h l))
  | Normal (Rejected e) => Normal (Rejected e)
  | Throw e => Throw e
  end.

(** A Keychain Service that keeps its records: the record of xpub1 is the
    object at location 0, and every request for xpub1 is answered with that
    object. *)
Module Keeping.

Definition records : store := [Scenario.record1].

Definition service : KeychainService :=
  fun params h =>
    match field params "xpub" with
    | VString xpub =>
        if xpub =? "xpub1" then (Normal (Fulfilled 0), h)
        else (Normal (Rejected (Error "not found")), h)
    | _ => (Throw (Error "Expecting parameter string: xpub"), h)
    end.

End Keeping.

(** ** The keychain resolver *)

Ltac run :=
  unfold bindC, bind, ret, call, throw, then_, settled, nodeify, reject in *;
  simpl in *.

Ltac run_in :=
  cbv beta iota zeta delta
    [outcome store_after calls bindC_in bind_in ret_in then_in lift read write
     fetch bindC bind ret call throw then_ settled nodeify reject] in *;
  cbn [fst snd] in *.

Lemma tryKeyChain_body (self : Wallet) (index : nat) :
  tryKeyChain self index =
  if exhausted self index
  then ret (reject "No encrypted keychains on this wallet.")
  else
    xpub <~ ret (get_prop (keychain_at self index) "xpub") ;;
    let params := VObject [("xpub", xpub)] in
    p <~ call (KeychainGet params) (keychains_get (bitgo self) params) ;;
    q <- then_ p (fun keychain =>
           encryptedXprv <~ ret (get_prop keychain "encryptedXprv") ;;
           if truthy encryptedXprv then ret (Normal (Fulfilled keychain))
           else tryKeyChain self (index + 1)) ;;
    ret (Normal (nodeify q)).
Proof.
  rewrite tryKeyChain_equation_1.
  generalize (Logic.inspect (exhausted self index)).
  intros [[] known].
  - rewrite tryKeyChain_clause_1_equation_1, known. reflexivity.
  - rewrite tryKeyChain_clause_1_equation_2, known. reflexivity.
Qed.

Lemma exhausted_false_lt (self : Wallet) (index : nat) :
  exhausted self index = false -> index < keychain_count self.
Proof.
  unfold exhausted, keychain_count.
  destruct (keychains self); [|discriminate].
  intros H. apply Nat.leb_gt in H. exact H.
Qed.

(** The resolver calls nothing but the Keychain Service. *)
Lemma tryKeyChain_trace_fetches (self : Wallet) (index : nat) :
  forallb is_fetch (snd (tryKeyChain self index)) = true.
Proof.
  remember (keychain_count self - index) as n eqn:measure.
  revert index measure.
  induction n as [n IH] using lt_wf_ind; intros index measure.
  rewrite tryKeyChain_body.
  destruct (exhausted self index) eqn:more; [reflexivity|].
  apply exhausted_false_lt in more.
  destruct (get_prop (keychain_at self index) "xpub") as [xpub|]; [|reflexivity].
  run.
  destruct (keychains_get (bitgo self) _) as [[keychain|]|]; try reflexivity.
  destruct (get_prop keychain "encryptedXprv") as [e|]; [|reflexivity].
  destruct (truthy e); [reflexivity|].
  specialize (IH (keychain_count self - (index + 1)) ltac:(lia) (index + 1) eq_refl).
  destruct (tryKeyChain self (index + 1)) as [[q|] t]; simpl in *;
    rewrite ?app_nil_r; exact IH.
Qed.

(** A keychain the resolver returns carries encrypted private material. *)
Lemma tryKeyChain_fulfilled (self : Wallet) (index : nat) (k : value) :
  fst (tryKeyChain self index) = Normal (Fulfilled k) ->
  carries_encryptedXprv k = Some true.
Proof.
  remember (keychain_count self - index) as n eqn:measure.
  revert index measure.
  induction n as [n IH] using lt_wf_ind; intros index measure.
  rewrite tryKeyChain_body.
  destruct (exhausted self index) eqn:more; [discriminate|].
  apply exhausted_false_lt in more.
  destruct (get_prop (keychain_at self index) "xpub") as [xpub|]; [|discriminate].
  run.
  destruct (keychains_get (bitgo self) _) as [[keychain|]|]; try discriminate.
  unfold carries_encryptedXprv.
  destruct (get_prop keychain "encryptedXprv") as [e|] eqn:read; [|discriminate].
  destruct (truthy e) eqn:present.
  - simpl. intros [= <-]. rewrite read, present. reflexivity.
  - specialize (IH (keychain_count self - (index + 1)) ltac:(lia) (index + 1) eq_refl).
    destruct (tryKeyChain self (index + 1)) as [[q|] t]; simpl in *;
      [|discriminate].
    exact IH.
Qed.

Lemma field_get_prop (v : value) (name : string) (x : value) :
  get_prop v name = Normal x -> field v name = x.
Proof.
  unfold field, or_empty.
  destruct v as [| |b|n|s|properties]; simpl; try discriminate.
  - destruct b; simpl; congruence.
  - destruct n as [| |q]; simpl; try congruence.
    destruct (Qeq_bool q 0); simpl; congruence.
  - destruct (s =? ""); simpl; congruence.
  - congruence.
Qed.

Lemma carries_encryptedXprv_object (k : value) :
  carries_encryptedXprv k = Some true ->
  exists properties, k = VObject properties
                     /\ truthy (lookup "encryptedXprv" properties) = true.
Proof.
  unfold carries_encryptedXprv.
  destruct k as [| |b|n|s|properties]; simpl; try discriminate.
  intros [= present]. exists properties. split; [reflexivity|exact present].
Qed.

Lemma skipn_cons_nth {A} (l : list A) (index : nat) (x : A) (rest : list A) (d : A) :
  skipn index l = x :: rest ->
  nth index l d = x /\ skipn (index + 1) l = rest /\ index < List.length l.
Proof.
  revert l. induction index as [|index IH]; intros [|y l]; simpl; try discriminate.
  - intros [= -> ->]. repeat split. lia.
  - intros H. destruct (IH l H) as (Hn & Hs & Hl). repeat split; auto. lia.
Qed.

(** One turn of the scan on a candidate whose record has no encrypted
    material: the candidate is fetched, and the scan goes on. *)
Lemma tryKeyChain_skip (self : Wallet) (ks : list value) (index : nat)
      (k : value) (rest : list value) :
  keychains self = Some ks ->
  skipn index ks = k :: rest ->
  unencrypted_candidate (bitgo self) k = true ->
  tryKeyChain self index =
  (Normal (settled (fst (tryKeyChain self (index + 1)))),
   fetch_event k :: snd (tryKeyChain self (index + 1))).
Proof.
  intros Hks Hskip Hk.
  destruct (skipn_cons_nth ks index k rest VUndefined Hskip) as (Hnth & _ & Hlt).
  rewrite tryKeyChain_body.
  unfold exhausted, keychain_at. rewrite Hks, Hnth.
  apply Nat.leb_gt in Hlt. rewrite Hlt.
  unfold unencrypted_candidate, fetch_record, fetch_event in Hk |- *.
  destruct (get_prop k "xpub") as [xpub|] eqn:Hxpub; [|discriminate].
  rewrite (field_get_prop _ _ _ Hxpub).
  unfold carries_encryptedXprv in Hk.
  run.
  destruct (keychains_get (bitgo self) _) as [[record|]|]; try discriminate.
  destruct (get_prop record "encryptedXprv") as [e|]; [|discriminate].
  destruct (truthy e); [discriminate|].
  destruct (tryKeyChain self (index + 1)) as [[q|] t]; simpl;
    rewrite ?app_nil_r; reflexivity.
Qed.

(** The turn of the scan that finds encrypted material: the candidate is
    fetched and its record returned. *)
Lemma tryKeyChain_hit (self : Wallet) (ks : list value) (index : nat)
      (k : value) (rest : list value) (record : value) :
  keychains self = Some ks ->
  skipn index ks = k :: rest ->
  fetch_record (bitgo self) k = Some record ->
  carries_encryptedXprv record = Some true ->
  tryKeyChain self index = (Normal (Fulfilled record), [fetch_event k]).
Proof.
  intros Hks Hskip Hk Hrecord.
  destruct (skipn_cons_nth ks index k rest VUndefined Hskip) as (Hnth & _ & Hlt).
  rewrite tryKeyChain_body.
  unfold exhausted, keychain_at. rewrite Hks, Hnth.
  apply Nat.leb_gt in Hlt. rewrite Hlt.
  unfold fetch_record, fetch_event in Hk |- *.
  destruct (get_prop k "xpub") as [xpub|] eqn:Hxpub; [|discriminate].
  rewrite (field_get_prop _ _ _ Hxpub).
  unfold carries_encryptedXprv in Hrecord.
  run.
  destruct (keychains_get (bitgo self) _) as [[r|]|]; try discriminate.
  injection Hk as ->.
  destruct (get_prop record "encryptedXprv") as [e|]; [|discriminate].
  injection Hrecord as ->. reflexivity.
Qed.

(** Past the last candidate the scan calls [self.reject], which throws;
    nothing is fetched. *)
Lemma tryKeyChain_end (self : Wallet) (ks : list value) (index : nat) :
  keychains self = Some ks ->
  skipn index ks = [] ->
  tryKeyChain self index = (Throw NotAFunction, []).
Proof.
  intros Hks Hskip.
  rewrite tryKeyChain_body. unfold exhausted. rewrite Hks.
  assert (List.length ks <= index) as Hle.
  { rewrite <- (firstn_skipn index ks) at 1. rewrite Hskip, app_nil_r.
    apply firstn_le_length. }
  apply Nat.leb_le in Hle. rewrite Hle. reflexivity.
Qed.

(** The scan over a run of candidates without encrypted material: each is
    fetched, in order, and the scan resumes behind them. *)
Lemma tryKeyChain_scan (self : Wallet) (ks : list value) (pre : list value) :
  keychains self = Some ks ->
  forallb (unencrypted_candidate (bitgo self)) pre = true ->
  forall (index : nat) (rest : list value) (q : promise value),
    skipn index ks = pre ++ rest ->
    fst (tryKeyChain self (index + List.length pre)) = Normal q ->
    tryKeyChain self index =
    (Normal q,
     map fetch_event pre ++ snd (tryKeyChain self (index + List.length pre))).
Proof.
  intros Hks. induction pre as [|k pre IH]; intros Hpre index rest q Hskip Hq.
  - simpl in *. rewrite Nat.add_0_r in *.
    destruct (tryKeyChain self index); simpl in *. congruence.
  - simpl in Hpre. apply andb_true_iff in Hpre as [Hk Hpre].
    simpl in Hskip.
    rewrite (tryKeyChain_skip self ks index k (pre ++ rest) Hks Hskip Hk).
    destruct (skipn_cons_nth ks index k _ VUndefined Hskip) as (_ & Hnext & _).
    replace (index + List.length (k :: pre)) with (index + 1 + List.length pre)
      in * by (simpl; lia).
    rewrite (IH Hpre (index + 1) rest q Hnext Hq). reflexivity.
Qed.

Lemma getEncryptedUserKeychain_tryKeyChain (self : Wallet) (params : value) :
  getEncryptedUserKeychain self params = tryKeyChain self 0.
Proof.
  unfold getEncryptedUserKeychain. run.
  destruct (tryKeyChain self 0) as [c t]. reflexivity.
Qed.

(** C2: the resolver fetches the candidates one at a time, in the given
    order, and returns the first fetched record whose [encryptedXprv] is
    present; the trace of the run is the fetches of the candidates up to and
    including that one, so no later candidate is fetched. *)
Theorem getEncryptedUserKeychain_first_match
        (self : Wallet) (params : value)
        (pre : list value) (c : value) (post : list value) (record : value) :
  keychains self = Some (pre ++ c :: post) ->
  forallb (unencrypted_candidate (bitgo self)) pre = true ->
  fetch_record (bitgo self) c = Some record ->
  carries_encryptedXprv record = Some true ->
  getEncryptedUserKeychain self params =
  (Normal (Fulfilled record), map fetch_event (pre ++ [c])).
Proof.
  intros Hks Hpre Hc Hrecord.
  rewrite getEncryptedUserKeychain_tryKeyChain.
  assert (skipn (0 + List.length pre) (pre ++ c :: post) = c :: post) as Hskip.
  { simpl. rewrite skipn_app, skipn_all, Nat.sub_diag. reflexivity. }
  pose proof (tryKeyChain_hit self _ _ c post record Hks Hskip Hc Hrecord) as Hhit.
  rewrite (tryKeyChain_scan self _ pre Hks Hpre 0 (c :: post)
             (Fulfilled record) eq_refl); rewrite Hhit; [|reflexivity].
  simpl. rewrite map_app. reflexivity.
Qed.

(** The scenario of C2: of the candidates A (no [encryptedXprv]), B and C
    (both with one), the resolver returns B's record and fetches A and B
    only. *)
Lemma getEncryptedUserKeychain_first_match_witness :
  getEncryptedUserKeychain Scenario.walletABC VUndefined =
  (Normal (Fulfilled Scenario.recordB),
   [KeychainGet (VObject [("xpub", VString "xpubA")]);
    KeychainGet (VObject [("xpub", VString "xpubB")])]).
Proof.
  apply (getEncryptedUserKeychain_first_match Scenario.walletABC VUndefined
           [Scenario.refA] Scenario.refB [Scenario.refC] Scenario.recordB);
    reflexivity.
Defined.

(** A wallet whose keychain list is [undefined] ends the same way. *)
Lemma getEncryptedUserKeychain_no_list (self : Wallet) (params : value) :
  keychains self = None ->
  getEncryptedUserKeychain self params = (Throw NotAFunction, []).
Proof.
  intros Hks. rewrite getEncryptedUserKeychain_tryKeyChain, tryKeyChain_body.
  unfold exhausted. rewrite Hks. reflexivity.
Qed.

(** The scan over a non-empty run of candidates without encrypted material:
    what the scan behind them throws has become a rejection. *)
Lemma tryKeyChain_scan_settled (self : Wallet) (ks : list value)
      (k : value) (pre : list value) :
  keychains self = Some ks ->
  forallb (unencrypted_candidate (bitgo self)) (k :: pre) = true ->
  forall (index : nat) (rest : list value),
    skipn index ks = (k :: pre) ++ rest ->
    tryKeyChain self index =
    (Normal (settled (fst (tryKeyChain self (index + List.length (k :: pre))))),
     map fetch_event (k :: pre)
     ++ snd (tryKeyChain self (index + List.length (k :: pre)))).
Proof.
  intros Hks. revert k. induction pre as [|k' pre IH];
    intros k Hall index rest Hskip;
    simpl in Hall; apply andb_true_iff in Hall as [Hk Hpre]; simpl in Hskip;
    rewrite (tryKeyChain_skip self ks index k _ Hks Hskip Hk);
    destruct (skipn_cons_nth ks index k _ VUndefined Hskip) as (_ & Hnext & _).
  - reflexivity.
  - rewrite (IH k' Hpre (index + 1) rest Hnext).
    replace (index + 1 + List.length (k' :: pre))
      with (index + List.length (k :: k' :: pre)) by (simpl; lia).
    reflexivity.
Qed.

(** C6: when the candidate sequence is empty, or no fetched record carries
    encrypted private material, the resolver fetches every candidate and
    then calls [self.reject('No encrypted keychains on this wallet.')].
    [wallet.js] defines no [reject], so the call throws a [TypeError] and the
    message never reaches the caller: on the empty sequence the resolver
    throws that [TypeError] synchronously, and behind a non-empty one, where
    the call is made inside a continuation, its promise is rejected with
    it.  In neither case does the resolver fail with [NoKeychainFound]. *)
Theorem getEncryptedUserKeychain_exhausted_is_TypeError
        (self : Wallet) (params : value) (ks : list value) :
  keychains self = Some ks ->
  forallb (unencrypted_candidate (bitgo self)) ks = true ->
  getEncryptedUserKeychain self params =
  (match ks with
   | [] => Throw NotAFunction
   | _ :: _ => Normal (Rejected NotAFunction)
   end,
   map fetch_event ks)
  /\ fst (getEncryptedUserKeychain self params)
     <> Normal (Rejected NoKeychainFound).
Proof.
  intros Hks Hall.
  rewrite getEncryptedUserKeychain_tryKeyChain.
  pose proof (tryKeyChain_end self ks (0 + List.length ks) Hks (skipn_all ks))
    as Hend.
  destruct ks as [|k ks].
  - simpl in Hend. rewrite Hend. split; [reflexivity|discriminate].
  - rewrite (tryKeyChain_scan_settled self (k :: ks) k ks Hks Hall 0 []
               (eq_sym (app_nil_r (k :: ks)))).
    rewrite Hend. cbn [fst snd settled]. rewrite app_nil_r.
    split; [reflexivity|discriminate].
Qed.

(** The empty list, and a list of two candidates without encrypted
    material. *)
Lemma getEncryptedUserKeychain_exhausted_is_TypeError_witness :
  (getEncryptedUserKeychain Scenario.wallet_empty VUndefined =
   (Throw (TypeError "self.reject is not a function"), [])
   /\ fst (getEncryptedUserKeychain Scenario.wallet_empty VUndefined)
      <> Normal (Rejected NoKeychainFound))
  /\ (getEncryptedUserKeychain Scenario.walletAA VUndefined =
      (Normal (Rejected (TypeError "self.reject is not a function")),
       [KeychainGet (VObject [("xpub", VString "xpubA")]);
        KeychainGet (VObject [("xpub", VString "xpubA")])])
      /\ fst (getEncryptedUserKeychain Scenario.walletAA VUndefined)
         <> Normal (Rejected NoKeychainFound)).
Proof.
  split.
  - apply (getEncryptedUserKeychain_exhausted_is_TypeError
             Scenario.wallet_empty VUndefined []); reflexivity.
  - apply (getEncryptedUserKeychain_exhausted_is_TypeError
             Scenario.walletAA VUndefined [Scenario.refA; Scenario.refA]);
      reflexivity.
Defined.

(** ** Sequencing *)

Lemma bind_ret {A B} (a : A) (f : A -> Eff B) : bind (ret a) f = f a.
Proof. unfold bind, ret. destruct (f a). reflexivity. Qed.

Lemma bindC_ret_Normal {A B} (a : A) (f : A -> Eff (completion B)) :
  bindC (ret (Normal a)) f = f a.
Proof. unfold bindC. rewrite bind_ret. reflexivity. Qed.

Lemma bindC_ret_Throw {A B} (e : error) (f : A -> Eff (completion B)) :
  bindC (ret (Throw e)) f = ret (Throw e).
Proof. unfold bindC. rewrite bind_ret. reflexivity. Qed.

Lemma then_Fulfilled {A B} (a : A) (f : A -> Eff (completion (promise B))) :
  then_ (Fulfilled a) f = (settled (fst (f a)), snd (f a)).
Proof. unfold then_, bind, ret. destruct (f a). simpl. rewrite app_nil_r. reflexivity. Qed.

Lemma bindC_call {A B} (e : event) (c : completion A)
      (f : A -> Eff (completion B)) :
  bindC (call e c) f = (fst (bindC (ret c) f), e :: snd (bindC (ret c) f)).
Proof.
  unfold bindC, bind, call, ret.
  destruct c as [a|err]; [destruct (f a)|]; reflexivity.
Qed.

(** ** The synchronous checks *)

Lemma or_empty_truthy (v : value) : truthy (or_empty v) = true.
Proof. unfold or_empty. destruct (truthy v) eqn:H; [exact H|reflexivity]. Qed.

Lemma or_empty_idem (v : value) : or_empty (or_empty v) = or_empty v.
Proof. unfold or_empty at 1. rewrite or_empty_truthy. reflexivity. Qed.

Lemma field_or_empty (v : value) (name : string) :
  field (or_empty v) name = field v name.
Proof. unfold field. rewrite or_empty_idem. reflexivity. Qed.

Lemma get_prop_or_empty (v : value) (name : string) :
  get_prop (or_empty v) name = Normal (field v name).
Proof.
  unfold field. pose proof (or_empty_truthy v) as H.
  destruct (or_empty v); simpl in *; try discriminate; reflexivity.
Qed.

Lemma validateParams_required (params : value) :
  required_present params = true ->
  validateParams (or_empty params) ["address"; "walletPassphrase"] [] = Normal tt.
Proof.
  unfold required_present. intros H. apply andb_true_iff in H as [Ha Hp].
  simpl. rewrite !get_prop_or_empty, Ha, Hp. reflexivity.
Qed.

Lemma validateParams_never_returns_without (params : value) :
  required_present params = false ->
  exists e, validateParams (or_empty params) ["address"; "walletPassphrase"] []
            = Throw e.
Proof.
  unfold required_present. intros H. simpl. rewrite !get_prop_or_empty.
  destruct (present_string (field params "address")); simpl in *.
  - rewrite H. eexists. reflexivity.
  - eexists. reflexivity.
Qed.

(** [sendCoins], with its checks spelled out on the defaulted request. *)
Lemma sendCoins_checks (builder : TransactionBuilder) (self : Wallet) (params : value) :
  sendCoins builder self params =
  match validateParams (or_empty params) ["address"; "walletPassphrase"] [] with
  | Throw e => (Throw e, [])
  | Normal _ =>
      if negb (typeof (field params "amount") =? "number")
      then (Throw InvalidAmountError, [])
      else if num_le0 (number_of (field params "amount"))
      then (Throw AmountError, [])
      else
        p <~ getEncryptedUserKeychain self VUndefined ;;
        p <- then_ p (decryptAndCreate builder self (or_empty params)) ;;
        let transaction := assigned p in
        p <- then_ p (sendAssembled self) ;;
        p <- then_ p (report transaction) ;;
        ret (Normal (nodeify p))
  end.
Proof.
  unfold sendCoins. cbv zeta.
  destruct (validateParams (or_empty params) _ _) as [[]|e];
    [|apply bindC_ret_Throw].
  rewrite bindC_ret_Normal, get_prop_or_empty, bindC_ret_Normal.
  reflexivity.
Qed.

(** C4: a request whose amount is not a number, or is [<= 0], makes
    [sendCoins] throw synchronously, before any call to a collaborator: the
    trace of the run is empty.  With the address and the passphrase present
    the error is the one about the amount: 'invalid argument for amount -
    number expected' when it is not a number, 'must send positive number of
    Satoshis!' when it is [<= 0]. *)
Theorem sendCoins_bad_amount_throws
        (builder : TransactionBuilder) (self : Wallet) (params : value) :
  typeof (field params "amount") <> "number"
  \/ num_le0 (number_of (field params "amount")) = true ->
  exists e,
    sendCoins builder self params = (Throw e, [])
    /\ (required_present params = true ->
        e = if typeof (field params "amount") =? "number"
            then AmountError else InvalidAmountError).
Proof.
  intros Hbad. rewrite sendCoins_checks.
  destruct (required_present params) eqn:Hreq.
  - rewrite (validateParams_required params Hreq).
    destruct (typeof (field params "amount") =? "number") eqn:Htype; simpl.
    + destruct Hbad as [Hnot|Hle].
      * apply String.eqb_eq in Htype. contradiction.
      * rewrite Hle. eexists. split; reflexivity.
    + eexists. split; reflexivity.
  - destruct (validateParams_never_returns_without params Hreq) as [e ->].
    exists e. split; [reflexivity|discriminate].
Qed.

Lemma sendCoins_bad_amount_throws_witness :
  sendCoins Scenario.signing_builder Scenario.wallet1
    (Scenario.request (VNumber (Finite (-5))) "correct")
  = (Throw AmountError, [])
  /\ sendCoins Scenario.signing_builder Scenario.wallet1
       (Scenario.request (VString "100000") "correct")
     = (Throw InvalidAmountError, []).
Proof.
  split.
  - destruct (sendCoins_bad_amount_throws Scenario.signing_builder
                Scenario.wallet1
                (Scenario.request (VNumber (Finite (-5))) "correct")
                (or_intror eq_refl)) as (e & Hthrow & Herror).
    rewrite Hthrow, (Herror eq_refl). reflexivity.
  - assert (typeof (field (Scenario.request (VString "100000") "correct") "amount")
            <> "number") as Htype by discriminate.
    destruct (sendCoins_bad_amount_throws Scenario.signing_builder
                Scenario.wallet1
                (Scenario.request (VString "100000") "correct")
                (or_introl Htype)) as (e & Hthrow & Herror).
    rewrite Hthrow, (Herror eq_refl). reflexivity.
Defined.

(** [createTransaction] makes the same checks on the amount, and throws as
    early. *)
Lemma createTransaction_bad_amount_throws
      (builder : TransactionBuilder) (self : Wallet) (params : value) :
  typeof (field params "amount") <> "number"
  \/ num_le0 (number_of (field params "amount")) = true ->
  exists e, createTransaction builder self params = (Throw e, []).
Proof.
  intros Hbad. unfold createTransaction. cbv zeta.
  cbn [validateParams]. rewrite get_prop_or_empty.
  destruct (present_string (field params "address"));
    [|rewrite bindC_ret_Throw; eexists; reflexivity].
  rewrite !get_prop_or_empty, !bindC_ret_Normal.
  destruct (typeof (field params "amount") =? "number") eqn:Htype; simpl.
  - destruct Hbad as [Hnot|Hle].
    + apply String.eqb_eq in Htype. contradiction.
    + rewrite Hle. destruct (_ || _); eexists; reflexivity.
  - eexists. reflexivity.
Qed.

(** ** The pipeline, stage by stage *)

Lemma fst_bind {A B} (m : Eff A) (f : A -> Eff B) :
  fst (bind m f) = fst (f (fst m)).
Proof. unfold bind. destruct m as [a t]. simpl. destruct (f a). reflexivity. Qed.

Lemma snd_bind {A B} (m : Eff A) (f : A -> Eff B) :
  snd (bind m f) = snd m ++ snd (f (fst m)).
Proof. unfold bind. destruct m as [a t]. simpl. destruct (f a). reflexivity. Qed.

Lemma valid_request_checks (params : value) :
  valid_request params = true ->
  required_present params = true
  /\ typeof (field params "amount") = "number"
  /\ num_le0 (number_of (field params "amount")) = false.
Proof.
  unfold valid_request. intros H. apply andb_true_iff in H as [Hreq Hamount].
  destruct (field params "amount") as [| |b|n|s|properties]; try discriminate.
  simpl. apply negb_true_iff in Hamount. auto.
Qed.

(** A request that passes the checks starts the chain of continuations. *)
Lemma sendCoins_valid (builder : TransactionBuilder) (self : Wallet) (params : value) :
  valid_request params = true ->
  sendCoins builder self params =
  (p <~ getEncryptedUserKeychain self VUndefined ;;
   p <- then_ p (decryptAndCreate builder self (or_empty params)) ;;
   let transaction := assigned p in
   p <- then_ p (sendAssembled self) ;;
   p <- then_ p (report transaction) ;;
   ret (Normal (nodeify p))).
Proof.
  intros Hvalid. apply valid_request_checks in Hvalid as (Hreq & Htype & Hpos).
  rewrite sendCoins_checks, (validateParams_required params Hreq), Htype, Hpos.
  reflexivity.
Qed.

(** When the resolver has returned a keychain, the run is the resolver's
    calls followed by those of the two continuations. *)
Lemma sendCoins_resolved (builder : TransactionBuilder) (self : Wallet)
      (params k : value) (t : list event) :
  valid_request params = true ->
  getEncryptedUserKeychain self VUndefined = (Normal (Fulfilled k), t) ->
  sendCoins builder self params =
  (let created := decryptAndCreate builder self (or_empty params) k in
   let p := settled (fst created) in
   let sent := then_ p (sendAssembled self) in
   let reported := then_ (fst sent) (report (assigned p)) in
   (Normal (fst reported), t ++ snd created ++ snd sent ++ snd reported)).
Proof.
  intros Hvalid Hk. rewrite (sendCoins_valid _ _ _ Hvalid), Hk.
  cbv zeta. unfold bindC, bind, ret, then_ at 1, nodeify. simpl.
  destruct (decryptAndCreate builder self (or_empty params) k) as [c t1]. simpl.
  destruct (then_ (settled c) (sendAssembled self)) as [q t2]. simpl.
  destruct (then_ q (report (assigned (settled c)))) as [q' t3]. simpl.
  rewrite !app_nil_r. reflexivity.
Qed.

Lemma get_prop_encrypted (k : value) :
  carries_encryptedXprv k = Some true ->
  get_prop k "encryptedXprv" = Normal (field k "encryptedXprv")
  /\ typeof (unlocked k VUndefined) = "object"
  /\ forall xprv, set_prop k "xprv" xprv = Normal (unlocked k xprv)
                  /\ typeof (unlocked k xprv) = "object".
Proof.
  intros H. destruct (carries_encryptedXprv_object k H) as (properties & -> & _).
  repeat split.
Qed.

(** The first continuation, when the primitive throws: the caught error is
    dropped, and the call of [self.reject] in the [catch] block throws in
    its turn; nothing is called after the primitive. *)
Lemma decryptAndCreate_locked (builder : TransactionBuilder) (self : Wallet)
      (params k : value) (e : error) :
  carries_encryptedXprv k = Some true ->
  decrypt (bitgo self) (secret_of params k) = Throw e ->
  decryptAndCreate builder self (or_empty params) k =
  (Throw NotAFunction, [Decrypt (secret_of params k)]).
Proof.
  intros Hk Hlocked. destruct (get_prop_encrypted k Hk) as (Hread & _ & _).
  unfold decryptAndCreate.
  rewrite get_prop_or_empty, bindC_ret_Normal, Hread, bindC_ret_Normal.
  cbv zeta. fold (secret_of params k). rewrite Hlocked. reflexivity.
Qed.

(** The first continuation, when the primitive returns the key: the keychain
    with its [xprv] set goes to [createTransaction]. *)
Lemma decryptAndCreate_unlocked (builder : TransactionBuilder) (self : Wallet)
      (params k xprv : value) :
  carries_encryptedXprv k = Some true ->
  decrypt (bitgo self) (secret_of params k) = Normal xprv ->
  decryptAndCreate builder self (or_empty params) k =
  (let created :=
     createTransaction builder self (assembly_params params (unlocked k xprv)) in
   (fst created, Decrypt (secret_of params k) :: snd created)).
Proof.
  intros Hk Hopen. destruct (get_prop_encrypted k Hk) as (Hread & _ & Hset).
  destruct (Hset xprv) as [Hwrite _].
  unfold decryptAndCreate.
  rewrite get_prop_or_empty, bindC_ret_Normal, Hread, bindC_ret_Normal.
  cbv zeta. fold (secret_of params k). rewrite Hopen.
  rewrite bindC_call, bindC_ret_Normal, Hwrite.
  simpl (fst (ret _)). simpl (snd (ret _)).
  unfold bind at 1. cbv beta iota.
  rewrite !get_prop_or_empty, !bindC_ret_Normal.
  fold (assembly_params params (unlocked k xprv)).
  destruct (createTransaction _ _ _) as [c t]. reflexivity.
Qed.

Lemma fetches_only (t : list event) :
  forallb is_fetch t = true ->
  existsb is_builder_call t = false /\ existsb is_broadcast t = false.
Proof.
  induction t as [|[] t IH]; simpl; try discriminate; auto.
Qed.

Lemma getEncryptedUserKeychain_fetches (self : Wallet) (params : value) :
  forallb is_fetch (snd (getEncryptedUserKeychain self params)) = true.
Proof.
  rewrite getEncryptedUserKeychain_tryKeyChain. apply tryKeyChain_trace_fetches.
Qed.

Lemma getEncryptedUserKeychain_fulfilled (self : Wallet) (params k : value)
      (t : list event) :
  getEncryptedUserKeychain self params = (Normal (Fulfilled k), t) ->
  carries_encryptedXprv k = Some true.
Proof.
  rewrite getEncryptedUserKeychain_tryKeyChain. intros H.
  apply (tryKeyChain_fulfilled self 0). rewrite H. reflexivity.
Qed.

(** A rejection of the resolver skips every continuation. *)
Lemma sendCoins_unresolved (builder : TransactionBuilder) (self : Wallet)
      (params : value) (e : error) (t : list event) :
  valid_request params = true ->
  getEncryptedUserKeychain self VUndefined = (Normal (Rejected e), t) ->
  sendCoins builder self params = (Normal (Rejected e), t).
Proof.
  intros Hvalid Hk. rewrite (sendCoins_valid _ _ _ Hvalid), Hk.
  run. rewrite !app_nil_r. reflexivity.
Qed.

(** What the resolver throws, [sendCoins] throws. *)
Lemma sendCoins_resolver_throws (builder : TransactionBuilder) (self : Wallet)
      (params : value) (e : error) (t : list event) :
  valid_request params = true ->
  getEncryptedUserKeychain self VUndefined = (Throw e, t) ->
  sendCoins builder self params = (Throw e, t).
Proof.
  intros Hvalid Hk. rewrite (sendCoins_valid _ _ _ Hvalid), Hk.
  run. rewrite !app_nil_r. reflexivity.
Qed.

(** A run in which the primitive throws: what the [catch] block throws
    rejects the promise of the first continuation, and the two continuations
    behind it are skipped. *)
Lemma sendCoins_decrypt_throws (builder : TransactionBuilder) (self : Wallet)
      (params k : value) (t : list event) (e : error) :
  valid_request params = true ->
  getEncryptedUserKeychain self VUndefined = (Normal (Fulfilled k), t) ->
  decrypt (bitgo self) (secret_of params k) = Throw e ->
  sendCoins builder self params =
  (Normal (Rejected NotAFunction), t ++ [Decrypt (secret_of params k)]).
Proof.
  intros Hvalid Hk Hlocked.
  rewrite (sendCoins_resolved _ _ _ _ _ Hvalid Hk).
  rewrite (decryptAndCreate_locked builder self params k e
             (getEncryptedUserKeychain_fulfilled _ _ _ _ Hk) Hlocked).
  reflexivity.
Qed.

(** C3: when the decryption primitive rejects the blob of the resolved
    keychain, the [catch] block of [sendCoins] calls
    [self.reject('Unable to decrypt user keychain')].  [wallet.js] defines no
    [reject], so that call throws inside the continuation and the promise of
    [sendCoins] is rejected with the [TypeError] of the call, not with a
    [DecryptionError].  The run calls the Keychain Service and the primitive
    and nothing else: neither the Transaction Builder nor the broadcast
    endpoint. *)
Theorem sendCoins_decrypt_failure_is_TypeError
        (builder : TransactionBuilder) (self : Wallet)
        (params k : value) (t : list event) (e : error) :
  valid_request params = true ->
  getEncryptedUserKeychain self VUndefined = (Normal (Fulfilled k), t) ->
  decrypt (bitgo self) (secret_of params k) = Throw e ->
  fst (sendCoins builder self params) = Normal (Rejected NotAFunction)
  /\ fst (sendCoins builder self params) <> Normal (Rejected DecryptionError)
  /\ snd (sendCoins builder self params) = t ++ [Decrypt (secret_of params k)]
  /\ existsb is_builder_call (snd (sendCoins builder self params)) = false
  /\ existsb is_broadcast (snd (sendCoins builder self params)) = false.
Proof.
  intros Hvalid Hk Hlocked.
  rewrite (sendCoins_decrypt_throws builder self params k t e Hvalid Hk Hlocked).
  pose proof (getEncryptedUserKeychain_fetches self VUndefined) as Hfetch.
  rewrite Hk in Hfetch. cbn [snd] in Hfetch.
  apply fetches_only in Hfetch as [Hb Hp].
  cbn [fst snd]. rewrite !existsb_app, Hb, Hp.
  repeat split. discriminate.
Qed.

(** The scenario of the spec: the right keychain, the wrong passphrase. *)
Lemma sendCoins_decrypt_failure_is_TypeError_witness :
  fst (sendCoins Scenario.signing_builder Scenario.wallet1
         (Scenario.request (VNumber (Finite 100000)) "wrong"))
  = Normal (Rejected (TypeError "self.reject is not a function"))
  /\ fst (sendCoins Scenario.signing_builder Scenario.wallet1
            (Scenario.request (VNumber (Finite 100000)) "wrong"))
     <> Normal (Rejected DecryptionError)
  /\ snd (sendCoins Scenario.signing_builder Scenario.wallet1
            (Scenario.request (VNumber (Finite 100000)) "wrong"))
     = [KeychainGet (VObject [("xpub", VString "xpub1")])]
       ++ [Decrypt (VObject [("password", VString "wrong");
                             ("opaque", VString "enc1")])]
  /\ existsb is_builder_call
       (snd (sendCoins Scenario.signing_builder Scenario.wallet1
               (Scenario.request (VNumber (Finite 100000)) "wrong")))
     = false
  /\ existsb is_broadcast
       (snd (sendCoins Scenario.signing_builder Scenario.wallet1
               (Scenario.request (VNumber (Finite 100000)) "wrong")))
     = false.
Proof.
  apply (sendCoins_decrypt_failure_is_TypeError
           Scenario.signing_builder Scenario.wallet1
           (Scenario.request (VNumber (Finite 100000)) "wrong")
           Scenario.record1 [KeychainGet (VObject [("xpub", VString "xpub1")])]
           (Error "ccm: tag doesn't match"));
    vm_compute; reflexivity.
Defined.

(** C8: two runs of [sendCoins] in which the decryption primitive throws end
    in the same rejection, whatever the passphrases, the blobs and the errors
    of the primitive were, and nothing of what the primitive threw is in it.
    But the error is not the one with the message 'Unable to decrypt user
    keychain': that message is passed to [self.reject], which [wallet.js]
    does not define, and what reaches the caller in both runs is the
    [TypeError] of that call. *)
Theorem decryption_failures_same_TypeError
        (builder1 builder2 : TransactionBuilder) (self1 self2 : Wallet)
        (params1 params2 k1 k2 : value) (t1 t2 : list event) (e1 e2 : error) :
  valid_request params1 = true ->
  getEncryptedUserKeychain self1 VUndefined = (Normal (Fulfilled k1), t1) ->
  decrypt (bitgo self1) (secret_of params1 k1) = Throw e1 ->
  valid_request params2 = true ->
  getEncryptedUserKeychain self2 VUndefined = (Normal (Fulfilled k2), t2) ->
  decrypt (bitgo self2) (secret_of params2 k2) = Throw e2 ->
  fst (sendCoins builder1 self1 params1) = fst (sendCoins builder2 self2 params2)
  /\ fst (sendCoins builder1 self1 params1)
     = Normal (Rejected (TypeError "self.reject is not a function"))
  /\ fst (sendCoins builder1 self1 params1)
     <> Normal (Rejected (Error "Unable to decrypt user keychain")).
Proof.
  intros Hvalid1 Hk1 Hlocked1 Hvalid2 Hk2 Hlocked2.
  rewrite (sendCoins_decrypt_throws builder1 self1 params1 k1 t1 e1 Hvalid1 Hk1 Hlocked1).
  rewrite (sendCoins_decrypt_throws builder2 self2 params2 k2 t2 e2 Hvalid2 Hk2 Hlocked2).
  repeat split. discriminate.
Qed.

(** Two runs that differ in passphrase, blob and error of the primitive. *)
Lemma decryption_failures_same_TypeError_witness :
  decrypt (Scenario.client Scenario.receipt)
    (secret_of (Scenario.request (VNumber (Finite 100000)) "wrong")
       Scenario.record1)
  = Throw (Error "ccm: tag doesn't match")
  /\ decrypt (Scenario.client Scenario.receipt)
       (secret_of (Scenario.request (VNumber (Finite 1)) "hunter2")
          Scenario.recordB)
     = Throw (Error "json decode: this isn't json!")
  /\ fst (sendCoins Scenario.signing_builder Scenario.wallet1
            (Scenario.request (VNumber (Finite 100000)) "wrong"))
     = fst (sendCoins Scenario.waiting_builder Scenario.walletAB
              (Scenario.request (VNumber (Finite 1)) "hunter2"))
  /\ fst (sendCoins Scenario.signing_builder Scenario.wallet1
            (Scenario.request (VNumber (Finite 100000)) "wrong"))
     = Normal (Rejected (TypeError "self.reject is not a function"))
  /\ fst (sendCoins Scenario.signing_builder Scenario.wallet1
            (Scenario.request (VNumber (Finite 100000)) "wrong"))
     <> Normal (Rejected (Error "Unable to decrypt user keychain")).
Proof.
  split; [reflexivity|]. split; [reflexivity|].
  apply (decryption_failures_same_TypeError
           Scenario.signing_builder Scenario.waiting_builder
           Scenario.wallet1 Scenario.walletAB
           (Scenario.request (VNumber (Finite 100000)) "wrong")
           (Scenario.request (VNumber (Finite 1)) "hunter2")
           Scenario.record1 Scenario.recordB
           [KeychainGet (VObject [("xpub", VString "xpub1")])]
           [KeychainGet (VObject [("xpub", VString "xpubA")]);
            KeychainGet (VObject [("xpub", VString "xpubB")])]
           (Error "ccm: tag doesn't match")
           (Error "json decode: this isn't json!"));
    vm_compute; reflexivity.
Defined.

(** C10: a wallet built from data without a [private] field has the empty
    keychain list, and no run of the resolver or of [sendCoins] on it calls
    the Keychain Service, or anything else.  But neither fails with
    'No encrypted keychains on this wallet.': at index 0 the resolver calls
    [self.reject], which [wallet.js] does not define, so it throws the
    [TypeError] of that call synchronously, and so does [sendCoins] on a
    request that passes its checks. *)
Theorem wallet_without_private_throws_TypeError
        (builder : TransactionBuilder) (b : BitGo) (data : WalletData) :
  private_ data = None ->
  keychains (new_Wallet b data) = Some []
  /\ (forall params,
        getEncryptedUserKeychain (new_Wallet b data) params
        = (Throw NotAFunction, []))
  /\ (forall params,
        snd (sendCoins builder (new_Wallet b data) params) = []
        /\ fst (sendCoins builder (new_Wallet b data) params)
           <> Normal (Rejected NoKeychainFound)
        /\ (valid_request params = true ->
            sendCoins builder (new_Wallet b data) params
            = (Throw NotAFunction, []))).
Proof.
  intros Hprivate.
  assert (keychains (new_Wallet b data) = Some []) as Hks.
  { unfold new_Wallet. simpl. rewrite Hprivate. reflexivity. }
  assert (forall params,
             getEncryptedUserKeychain (new_Wallet b data) params
             = (Throw NotAFunction, [])) as Hresolve.
  { intros params. rewrite getEncryptedUserKeychain_tryKeyChain.
    apply (tryKeyChain_end _ [] 0 Hks eq_refl). }
  split; [exact Hks|]. split; [exact Hresolve|].
  intros params.
  assert (valid_request params = true ->
          sendCoins builder (new_Wallet b data) params = (Throw NotAFunction, []))
    as Hspend.
  { intros Hvalid.
    apply (sendCoins_resolver_throws _ _ _ _ _ Hvalid (Hresolve _)). }
  split; [|split; [|exact Hspend]].
  - rewrite sendCoins_checks.
    destruct (validateParams _ _ _); [|reflexivity].
    destruct (negb _); [reflexivity|].
    destruct (num_le0 _); [reflexivity|].
    rewrite Hresolve. reflexivity.
  - rewrite sendCoins_checks.
    destruct (validateParams _ _ _); [|discriminate].
    destruct (negb _); [discriminate|].
    destruct (num_le0 _); [discriminate|].
    rewrite Hresolve. discriminate.
Qed.

Lemma wallet_without_private_throws_TypeError_witness :
  keychains Scenario.wallet_bare = Some []
  /\ getEncryptedUserKeychain Scenario.wallet_bare VUndefined
     = (Throw (TypeError "self.reject is not a function"), [])
  /\ sendCoins Scenario.signing_builder Scenario.wallet_bare
       (Scenario.request (VNumber (Finite 100000)) "correct")
     = (Throw (TypeError "self.reject is not a function"), []).
Proof.
  destruct (wallet_without_private_throws_TypeError Scenario.signing_builder
              (Scenario.client Scenario.receipt) (Scenario.data None) eq_refl)
    as (Hks & Hresolve & Hspend).
  split; [exact Hks|]. split; [apply Hresolve|].
  apply Hspend. reflexivity.
Defined.

(** ** Assembling and broadcasting *)

(** [createTransaction] as [sendCoins] calls it: the checks pass, and the
    builder prepares and signs. *)
Lemma createTransaction_assembly (builder : TransactionBuilder) (self : Wallet)
      (params keychain : value) :
  valid_request params = true ->
  typeof keychain = "object" ->
  createTransaction builder self (assembly_params params keychain) =
  (p <~ call (BuilderPrepare (recipient_of params) VUndefined)
             (prepare builder self (recipient_of params) VUndefined) ;;
   p <- then_ p (fun tb => call (BuilderSign keychain) (sign builder tb keychain)) ;;
   p <- then_ p (fun tb =>
          match tb with
          | Some tb =>
              tx <~ ret (tb_tx builder tb) ;;
              ret (Normal (Fulfilled
                     (VObject [("tx", tx); ("fee", tb_fee builder tb)])))
          | None => ret (Normal (Fulfilled VUndefined))
          end) ;;
   ret (Normal (nodeify p))).
Proof.
  intros Hvalid Hobject.
  apply valid_request_checks in Hvalid as (Hreq & Htype & Hpos).
  unfold required_present in Hreq. apply andb_true_iff in Hreq as [Haddress _].
  unfold createTransaction, assembly_params. cbv zeta.
  change (or_empty (VObject ?ps)) with (VObject ps).
  cbn [validateParams get_prop lookup String.eqb Ascii.eqb Bool.eqb].
  rewrite Haddress, !bindC_ret_Normal, Htype, Hobject, Hpos.
  reflexivity.
Qed.

(** The assembler when [sign] reports that no transaction was produced: it
    fulfils its promise with [undefined]. *)
Lemma createTransaction_unsigned (builder : TransactionBuilder)
      (self : Wallet) (params keychain : value) (tb : builder_state builder) :
  valid_request params = true ->
  typeof keychain = "object" ->
  prepare builder self (recipient_of params) VUndefined = Normal (Fulfilled tb) ->
  sign builder tb keychain = Normal (Fulfilled None) ->
  createTransaction builder self (assembly_params params keychain) =
  (Normal (Fulfilled VUndefined),
   [BuilderPrepare (recipient_of params) VUndefined; BuilderSign keychain]).
Proof.
  intros Hvalid Hobject Hprepare Hsign.
  rewrite (createTransaction_assembly _ _ _ _ Hvalid Hobject), Hprepare.
  run. rewrite Hsign. reflexivity.
Qed.

(** The assembler when [sign] completes the transaction. *)
Lemma createTransaction_signed (builder : TransactionBuilder)
      (self : Wallet) (params keychain : value) (tb tb' : builder_state builder)
      (tx : value) :
  valid_request params = true ->
  typeof keychain = "object" ->
  prepare builder self (recipient_of params) VUndefined = Normal (Fulfilled tb) ->
  sign builder tb keychain = Normal (Fulfilled (Some tb')) ->
  tb_tx builder tb' = Normal tx ->
  createTransaction builder self (assembly_params params keychain) =
  (Normal (Fulfilled (VObject [("tx", tx); ("fee", tb_fee builder tb')])),
   [BuilderPrepare (recipient_of params) VUndefined; BuilderSign keychain]).
Proof.
  intros Hvalid Hobject Hprepare Hsign Htx.
  rewrite (createTransaction_assembly _ _ _ _ Hvalid Hobject), Hprepare.
  run. rewrite Hsign. simpl. rewrite Htx. reflexivity.
Qed.

(** The second continuation on [undefined]: reading [transaction.tx] throws
    before [sendTransaction] is called. *)
Lemma sendAssembled_undefined (self : Wallet) :
  sendAssembled self VUndefined =
  (Throw (TypeError "Cannot read property 'tx' of undefined"), []).
Proof. reflexivity. Qed.

(** The second continuation on a transaction that the endpoint accepts. *)
Lemma sendAssembled_sent (self : Wallet) (tx fee body transaction hash : value) :
  present_string tx = true ->
  post (bitgo self) (url (bitgo self) "/tx/send") (VObject [("tx", tx)])
  = Normal (Fulfilled body) ->
  get_prop body "transaction" = Normal transaction ->
  get_prop body "transactionHash" = Normal hash ->
  sendAssembled self (VObject [("tx", tx); ("fee", fee)]) =
  (Normal (Fulfilled (VObject [("tx", transaction); ("hash", hash)])),
   [Post (url (bitgo self) "/tx/send") (VObject [("tx", tx)])]).
Proof.
  intros Htx Hpost Htransaction Hhash.
  unfold sendAssembled, sendTransaction. run.
  rewrite Htx. simpl. rewrite Hpost. simpl.
  rewrite Htransaction, Hhash. reflexivity.
Qed.

(** A run in which [sign] reports that no transaction was produced. *)
Lemma sendCoins_unsigned_run (builder : TransactionBuilder) (self : Wallet)
      (params k xprv : value) (t : list event) (tb : builder_state builder) :
  valid_request params = true ->
  getEncryptedUserKeychain self VUndefined = (Normal (Fulfilled k), t) ->
  decrypt (bitgo self) (secret_of params k) = Normal xprv ->
  prepare builder self (recipient_of params) VUndefined = Normal (Fulfilled tb) ->
  sign builder tb (unlocked k xprv) = Normal (Fulfilled None) ->
  sendCoins builder self params =
  (Normal (Rejected (TypeError "Cannot read property 'tx' of undefined")),
   t ++ [Decrypt (secret_of params k);
         BuilderPrepare (recipient_of params) VUndefined;
         BuilderSign (unlocked k xprv)]).
Proof.
  intros Hvalid Hk Hopen Hprepare Hsign.
  pose proof (getEncryptedUserKeychain_fulfilled _ _ _ _ Hk) as Hcarries.
  destruct (get_prop_encrypted k Hcarries) as (_ & _ & Hset).
  destruct (Hset xprv) as [_ Hobject].
  rewrite (sendCoins_resolved _ _ _ _ _ Hvalid Hk).
  rewrite (decryptAndCreate_unlocked builder self params k xprv Hcarries Hopen).
  rewrite (createTransaction_unsigned builder self params _ tb
             Hvalid Hobject Hprepare Hsign).
  reflexivity.
Qed.

(** A run in which every stage succeeds. *)
Lemma sendCoins_success (builder : TransactionBuilder) (self : Wallet)
      (params k xprv : value) (t : list event) (tb tb' : builder_state builder)
      (tx body transaction hash : value) :
  valid_request params = true ->
  getEncryptedUserKeychain self VUndefined = (Normal (Fulfilled k), t) ->
  decrypt (bitgo self) (secret_of params k) = Normal xprv ->
  prepare builder self (recipient_of params) VUndefined = Normal (Fulfilled tb) ->
  sign builder tb (unlocked k xprv) = Normal (Fulfilled (Some tb')) ->
  tb_tx builder tb' = Normal tx ->
  present_string tx = true ->
  post (bitgo self) (url (bitgo self) "/tx/send") (VObject [("tx", tx)])
  = Normal (Fulfilled body) ->
  get_prop body "transaction" = Normal transaction ->
  get_prop body "transactionHash" = Normal hash ->
  sendCoins builder self params =
  (Normal (Fulfilled (VObject [("tx", transaction); ("hash", hash);
                               ("fee", tb_fee builder tb')])),
   t ++ [Decrypt (secret_of params k);
         BuilderPrepare (recipient_of params) VUndefined;
         BuilderSign (unlocked k xprv);
         Post (url (bitgo self) "/tx/send") (VObject [("tx", tx)])]).
Proof.
  intros Hvalid Hk Hopen Hprepare Hsign Htx Hpresent Hpost Htransaction Hhash.
  pose proof (getEncryptedUserKeychain_fulfilled _ _ _ _ Hk) as Hcarries.
  destruct (get_prop_encrypted k Hcarries) as (_ & _ & Hset).
  destruct (Hset xprv) as [_ Hobject].
  rewrite (sendCoins_resolved _ _ _ _ _ Hvalid Hk).
  rewrite (decryptAndCreate_unlocked builder self params k xprv Hcarries Hopen).
  rewrite (createTransaction_signed builder self params _ tb tb' tx
             Hvalid Hobject Hprepare Hsign Htx).
  cbv zeta. cbn [fst snd settled assigned].
  rewrite then_Fulfilled.
  rewrite (sendAssembled_sent self tx _ body transaction hash
             Hpresent Hpost Htransaction Hhash).
  reflexivity.
Qed.

(** C1: when the pipeline reaches assembly and the builder's [sign] reports
    that no transaction was produced, [createTransaction] fulfils its promise
    with [undefined]; the next continuation of [sendCoins] then reads
    [transaction.tx] on it, so the run ends in a promise rejected with a
    [TypeError], not in an outcome without result and without error.  The
    broadcast endpoint is not called. *)
Theorem sendCoins_nothing_signed_is_TypeError
        (builder : TransactionBuilder) (self : Wallet)
        (params k xprv : value) (t : list event) (tb : builder_state builder) :
  valid_request params = true ->
  getEncryptedUserKeychain self VUndefined = (Normal (Fulfilled k), t) ->
  decrypt (bitgo self) (secret_of params k) = Normal xprv ->
  prepare builder self (recipient_of params) VUndefined = Normal (Fulfilled tb) ->
  sign builder tb (unlocked k xprv) = Normal (Fulfilled None) ->
  fst (createTransaction builder self (assembly_params params (unlocked k xprv)))
  = Normal (Fulfilled VUndefined)
  /\ fst (sendCoins builder self params)
     = Normal (Rejected (TypeError "Cannot read property 'tx' of undefined"))
  /\ existsb is_broadcast (snd (sendCoins builder self params)) = false.
Proof.
  intros Hvalid Hk Hopen Hprepare Hsign.
  pose proof (getEncryptedUserKeychain_fulfilled _ _ _ _ Hk) as Hcarries.
  destruct (get_prop_encrypted k Hcarries) as (_ & _ & Hset).
  destruct (Hset xprv) as [_ Hobject].
  rewrite (createTransaction_unsigned builder self params _ tb
             Hvalid Hobject Hprepare Hsign).
  rewrite (sendCoins_unsigned_run builder self params k xprv t tb
             Hvalid Hk Hopen Hprepare Hsign).
  pose proof (getEncryptedUserKeychain_fetches self VUndefined) as Hfetch.
  rewrite Hk in Hfetch. cbn [snd] in Hfetch.
  apply fetches_only in Hfetch as [_ Hp].
  cbn [fst snd]. rewrite existsb_app, Hp. auto.
Qed.

(** A spend with the right passphrase against a builder that awaits a second
    signer. *)
Lemma sendCoins_nothing_signed_is_TypeError_witness :
  fst (createTransaction Scenario.waiting_builder Scenario.wallet1
         (assembly_params (Scenario.request (VNumber (Finite 100000)) "correct")
            (unlocked Scenario.record1 (VString "xprv"))))
  = Normal (Fulfilled VUndefined)
  /\ fst (sendCoins Scenario.waiting_builder Scenario.wallet1
            (Scenario.request (VNumber (Finite 100000)) "correct"))
     = Normal (Rejected (TypeError "Cannot read property 'tx' of undefined"))
  /\ existsb is_broadcast
       (snd (sendCoins Scenario.waiting_builder Scenario.wallet1
               (Scenario.request (VNumber (Finite 100000)) "correct")))
     = false.
Proof.
  apply (sendCoins_nothing_signed_is_TypeError Scenario.waiting_builder
           Scenario.wallet1
           (Scenario.request (VNumber (Finite 100000)) "correct")
           Scenario.record1 (VString "xprv")
           [KeychainGet (VObject [("xpub", VString "xpub1")])] false);
    vm_compute; reflexivity.
Defined.

(** C7: the scenario of the spec.  One keychain [{xpub: "xpub1",
    encryptedXprv: "enc1"}], the request [{address: "1ABC", amount: 100000,
    walletPassphrase: "correct"}], a primitive that opens the blob, a builder
    whose signed transaction is "deadbeef" with fee 1000, and an endpoint
    that answers [{transaction: "deadbeef", transactionHash: "h1"}]:
    [sendCoins] returns a promise fulfilled with exactly [{tx: "deadbeef",
    hash: "h1", fee: 1000}]. *)
Theorem sendCoins_scenario
        (builder : TransactionBuilder) (self : Wallet) (xprv : value)
        (tb tb' : builder_state builder) :
  keychains self
  = Some [VObject [("xpub", VString "xpub1"); ("encryptedXprv", VString "enc1")]] ->
  keychains_get (bitgo self) (VObject [("xpub", VString "xpub1")])
  = Normal (Fulfilled
      (VObject [("xpub", VString "xpub1"); ("encryptedXprv", VString "enc1")])) ->
  decrypt (bitgo self)
    (VObject [("password", VString "correct"); ("opaque", VString "enc1")])
  = Normal xprv ->
  prepare builder self
    (VObject [("address", VString "1ABC"); ("amount", VNumber (Finite 100000))])
    VUndefined
  = Normal (Fulfilled tb) ->
  sign builder tb
    (VObject [("xpub", VString "xpub1"); ("encryptedXprv", VString "enc1");
              ("xprv", xprv)])
  = Normal (Fulfilled (Some tb')) ->
  tb_tx builder tb' = Normal (VString "deadbeef") ->
  tb_fee builder tb' = VNumber (Finite 1000) ->
  post (bitgo self) (url (bitgo self) "/tx/send")
    (VObject [("tx", VString "deadbeef")])
  = Normal (Fulfilled
      (VObject [("transaction", VString "deadbeef");
                ("transactionHash", VString "h1")])) ->
  fst (sendCoins builder self
         (VObject [("address", VString "1ABC");
                   ("amount", VNumber (Finite 100000));
                   ("walletPassphrase", VString "correct")]))
  = Normal (Fulfilled
      (VObject [("tx", VString "deadbeef"); ("hash", VString "h1");
                ("fee", VNumber (Finite 1000))])).
Proof.
  intros Hks Hfetch Hopen Hprepare Hsign Htx Hfee Hpost.
  set (keychain := VObject [("xpub", VString "xpub1");
                            ("encryptedXprv", VString "enc1")]) in *.
  set (params := VObject [("address", VString "1ABC");
                          ("amount", VNumber (Finite 100000));
                          ("walletPassphrase", VString "correct")]).
  assert (getEncryptedUserKeychain self VUndefined
          = (Normal (Fulfilled keychain), [fetch_event keychain])) as Hk.
  { rewrite getEncryptedUserKeychain_tryKeyChain.
    apply (tryKeyChain_hit self [keychain] 0 keychain [] keychain Hks eq_refl);
      [|reflexivity].
    unfold fetch_record. cbn [get_prop lookup keychain String.eqb Ascii.eqb Bool.eqb].
    rewrite Hfetch. reflexivity. }
  assert (valid_request params = true) as Hvalid by reflexivity.
  rewrite (sendCoins_success builder self params keychain xprv _ tb tb'
             (VString "deadbeef") _ (VString "deadbeef") (VString "h1")
             Hvalid Hk Hopen Hprepare Hsign Htx eq_refl Hpost eq_refl eq_refl).
  rewrite Hfee. reflexivity.
Qed.

Lemma sendCoins_scenario_witness :
  fst (sendCoins Scenario.signing_builder Scenario.wallet1
         (VObject [("address", VString "1ABC");
                   ("amount", VNumber (Finite 100000));
                   ("walletPassphrase", VString "correct")]))
  = Normal (Fulfilled
      (VObject [("tx", VString "deadbeef"); ("hash", VString "h1");
                ("fee", VNumber (Finite 1000))])).
Proof.
  apply (sendCoins_scenario Scenario.signing_builder Scenario.wallet1
           (VString "xprv") false true);
    reflexivity.
Defined.

(** ** What a fulfilled spend went through *)

Lemma get_prop_defined (v : value) (name other : string) (x : value) :
  get_prop v name = Normal x -> get_prop v other = Normal (field v other).
Proof.
  intros H. destruct (get_prop v other) as [y|e] eqn:Hother.
  - rewrite (field_get_prop _ _ _ Hother). reflexivity.
  - destruct v; simpl in *; discriminate.
Qed.

(** A request that fails the checks makes [sendCoins] throw, with no call. *)
Lemma sendCoins_invalid (builder : TransactionBuilder) (self : Wallet)
      (params : value) :
  valid_request params = false ->
  exists e, sendCoins builder self params = (Throw e, []).
Proof.
  intros Hinvalid. rewrite sendCoins_checks.
  destruct (required_present params) eqn:Hreq.
  - rewrite (validateParams_required params Hreq).
    unfold valid_request in Hinvalid. rewrite Hreq in Hinvalid. simpl in Hinvalid.
    destruct (field params "amount") as [| |b|n|s|properties]; simpl;
      try (eexists; reflexivity).
    apply negb_false_iff in Hinvalid. rewrite Hinvalid. eexists. reflexivity.
  - destruct (validateParams_never_returns_without params Hreq) as [e ->].
    exists e. reflexivity.
Qed.

(** The last two continuations fulfil the promise only with the endpoint's
    [transaction] and [transactionHash] and the fee of the assembled
    transaction. *)
Lemma report_fulfilled (self : Wallet) (transaction r : value) :
  fst (then_ (fst (then_ (Fulfilled transaction) (sendAssembled self)))
         (report transaction)) = Fulfilled r ->
  exists body,
    post (bitgo self) (url (bitgo self) "/tx/send") (payload_of transaction)
    = Normal (Fulfilled body)
    /\ r = VObject [("tx", field body "transaction");
                    ("hash", field body "transactionHash");
                    ("fee", field transaction "fee")].
Proof.
  rewrite then_Fulfilled. cbn [fst].
  unfold sendAssembled, payload_of.
  destruct (get_prop transaction "tx") as [tx|e] eqn:Htx; [|discriminate].
  rewrite bindC_ret_Normal, (field_get_prop _ _ _ Htx).
  unfold sendTransaction. cbv zeta.
  change (or_empty (VObject ?ps)) with (VObject ps).
  cbn [validateParams get_prop lookup String.eqb Ascii.eqb Bool.eqb].
  destruct (present_string tx); [|discriminate].
  rewrite !bindC_ret_Normal, bindC_call.
  destruct (post (bitgo self) _ _) as [[body|e]|e] eqn:Hpost; try discriminate.
  rewrite bindC_ret_Normal, then_Fulfilled. cbn [fst snd bind ret nodeify settled].
  destruct (get_prop body "transaction") as [x|e] eqn:Hx; [|discriminate].
  rewrite bindC_ret_Normal.
  destruct (get_prop body "transactionHash") as [h|e] eqn:Hh; [|discriminate].
  rewrite bindC_ret_Normal. cbn [fst snd ret settled].
  unfold nodeify. rewrite then_Fulfilled. cbn [fst]. unfold report.
  cbn [get_prop lookup String.eqb Ascii.eqb Bool.eqb].
  rewrite !bindC_ret_Normal, (get_prop_defined _ _ "fee" _ Htx), bindC_ret_Normal.
  cbn [fst ret settled]. intros [= <-].
  exists body.
  rewrite (field_get_prop _ _ _ Hx), (field_get_prop _ _ _ Hh).
  split; reflexivity.
Qed.

(** The assembler fulfils its promise with [undefined] or with the
    transaction and fee of a builder. *)
Lemma createTransaction_fulfilled (builder : TransactionBuilder) (self : Wallet)
      (params transaction : value) :
  fst (createTransaction builder self params) = Normal (Fulfilled transaction) ->
  transaction = VUndefined
  \/ exists (tb : builder_state builder) (tx : value),
       tb_tx builder tb = Normal tx
       /\ transaction = VObject [("tx", tx); ("fee", tb_fee builder tb)].
Proof.
  unfold createTransaction. cbv zeta. run.
  destruct (get_prop (or_empty params) "address") as [a|]; [|discriminate].
  destruct (present_string a); [|discriminate]. simpl.
  rewrite !get_prop_or_empty.
  destruct (_ || _ || _); [discriminate|].
  destruct (num_le0 _); [discriminate|]. simpl.
  destruct (prepare builder self _ _) as [[tb|e]|e]; try discriminate.
  simpl.
  destruct (sign builder tb _) as [[[tb'|]|e]|e]; try discriminate; simpl.
  - destruct (tb_tx builder tb') as [tx|e] eqn:Htx; [|discriminate].
    simpl. intros [= <-]. right. exists tb', tx. split; [exact Htx|reflexivity].
  - intros [= <-]. left. reflexivity.
Qed.

(** C5: the result of a successful spend is [{tx, hash, fee}] where [tx] and
    [hash] are the [transaction] and [transactionHash] of the broadcast
    response and [fee] is the fee of the transaction [createTransaction]
    produced, the [fee] of the signed builder; no other field of the
    response reaches the result, and nothing computes a fee after
    assembly. *)
Theorem sendCoins_fee_from_assembly
        (builder : TransactionBuilder) (self : Wallet) (params r : value) :
  fst (sendCoins builder self params) = Normal (Fulfilled r) ->
  exists (keychain transaction body tx : value) (tb : builder_state builder),
    fst (createTransaction builder self (assembly_params params keychain))
    = Normal (Fulfilled transaction)
    /\ transaction = VObject [("tx", tx); ("fee", tb_fee builder tb)]
    /\ post (bitgo self) (url (bitgo self) "/tx/send") (payload_of transaction)
       = Normal (Fulfilled body)
    /\ r = VObject [("tx", field body "transaction");
                    ("hash", field body "transactionHash");
                    ("fee", field transaction "fee")]
    /\ field r "fee" = tb_fee builder tb.
Proof.
  intros Hr.
  destruct (valid_request params) eqn:Hvalid.
  2:{ destruct (sendCoins_invalid builder self params Hvalid) as [e He].
      rewrite He in Hr. discriminate. }
  destruct (getEncryptedUserKeychain self VUndefined) as [[[k|e]|e] t] eqn:Hk.
  - pose proof (getEncryptedUserKeychain_fulfilled _ _ _ _ Hk) as Hcarries.
    rewrite (sendCoins_resolved _ _ _ _ _ Hvalid Hk) in Hr.
    destruct (decrypt (bitgo self) (secret_of params k)) as [xprv|e] eqn:Hopen.
    + rewrite (decryptAndCreate_unlocked builder self params k xprv Hcarries Hopen)
        in Hr.
      cbv zeta in Hr. cbn [fst snd] in Hr.
      destruct (fst (createTransaction builder self
                       (assembly_params params (unlocked k xprv))))
        as [[transaction|e]|e] eqn:Hcreated; try discriminate.
      cbn [settled assigned] in Hr. injection Hr as Hr.
      destruct (report_fulfilled self transaction r Hr) as (body & Hpost & ->).
      destruct (createTransaction_fulfilled builder self _ transaction Hcreated)
        as [->|(tb & tx & _ & ->)].
      * discriminate.
      * exists (unlocked k xprv), (VObject [("tx", tx); ("fee", tb_fee builder tb)]),
          body, tx, tb.
        repeat split; assumption.
    + rewrite (decryptAndCreate_locked builder self params k e Hcarries Hopen) in Hr.
      discriminate.
  - rewrite (sendCoins_unresolved _ _ _ _ _ Hvalid Hk) in Hr. discriminate.
  - rewrite (sendCoins_valid _ _ _ Hvalid), Hk in Hr. discriminate.
Qed.

(** A successful spend whose broadcast response reports a fee of 7: the
    result carries the builder's fee, 1000. *)
Lemma sendCoins_fee_from_assembly_witness :
  Scenario.receipt_with_fee
  = VObject [("transaction", VString "deadbeef"); ("transactionHash", VString "h1");
             ("fee", VNumber (Finite 7))]
  /\ exists (keychain transaction body tx : value) (tb : bool),
       fst (createTransaction Scenario.signing_builder Scenario.wallet1_fee
              (assembly_params
                 (Scenario.request (VNumber (Finite 100000)) "correct") keychain))
       = Normal (Fulfilled transaction)
       /\ transaction = VObject [("tx", tx); ("fee", VNumber (Finite 1000))]
       /\ post (bitgo Scenario.wallet1_fee)
            (url (bitgo Scenario.wallet1_fee) "/tx/send") (payload_of transaction)
          = Normal (Fulfilled body)
       /\ VObject [("tx", VString "deadbeef"); ("hash", VString "h1");
                   ("fee", VNumber (Finite 1000))]
          = VObject [("tx", field body "transaction");
                     ("hash", field body "transactionHash");
                     ("fee", field transaction "fee")]
       /\ field (VObject [("tx", VString "deadbeef"); ("hash", VString "h1");
                          ("fee", VNumber (Finite 1000))]) "fee"
          = VNumber (Finite 1000).
Proof.
  split; [reflexivity|].
  apply (sendCoins_fee_from_assembly Scenario.signing_builder
           Scenario.wallet1_fee
           (Scenario.request (VNumber (Finite 100000)) "correct")
           (VObject [("tx", VString "deadbeef"); ("hash", VString "h1");
                     ("fee", VNumber (Finite 1000))])).
  vm_compute. reflexivity.
Defined.

(** The whole run of the spec's scenario: one fetch, one decryption, the two
    calls to the builder and one broadcast, in that order. *)
Example scenario_trace :
  snd (sendCoins Scenario.signing_builder Scenario.wallet1
         (Scenario.request (VNumber (Finite 100000)) "correct"))
  = [KeychainGet (VObject [("xpub", VString "xpub1")]);
     Decrypt (VObject [("password", VString "correct"); ("opaque", VString "enc1")]);
     BuilderPrepare
       (VObject [("address", VString "1ABC"); ("amount", VNumber (Finite 100000))])
       VUndefined;
     BuilderSign
       (VObject [("xpub", VString "xpub1"); ("encryptedXprv", VString "enc1");
                 ("xprv", VString "xprv")]);
     Post "https://test.bitgo.com/api/v1/tx/send"
       (VObject [("tx", VString "deadbeef")])].
Proof. vm_compute. reflexivity. Qed.

(** ** More on the keychain resolver *)

Lemma skipn_nth_cons {A} (l : list A) (index : nat) (d : A) :
  index < List.length l ->
  skipn index l = nth index l d :: skipn (index + 1) l.
Proof.
  revert l. induction index as [|index IH]; intros [|x l] Hlt; simpl in *;
    try lia.
  - reflexivity.
  - apply IH. lia.
Qed.

Lemma exhausted_false_candidates (self : Wallet) (index : nat) :
  exhausted self index = false ->
  keychains self = Some (candidates self)
  /\ index < List.length (candidates self)
  /\ keychain_at self index = nth index (candidates self) VUndefined.
Proof.
  unfold exhausted, candidates, keychain_at.
  destruct (keychains self) as [ks|]; [|discriminate].
  intros H. apply Nat.leb_gt in H. auto.
Qed.

Lemma tryKeyChain_fetches_prefix (self : Wallet) (index : nat) :
  exists n,
    snd (tryKeyChain self index)
    = map fetch_event (firstn n (skipn index (candidates self))).
Proof.
  remember (keychain_count self - index) as m eqn:measure.
  revert index measure.
  induction m as [m IH] using lt_wf_ind; intros index measure.
  rewrite tryKeyChain_body.
  destruct (exhausted self index) eqn:more; [exists 0; reflexivity|].
  pose proof (exhausted_false_lt self index more) as Hcount.
  destruct (exhausted_false_candidates self index more) as (_ & Hlt & ->).
  rewrite (skipn_nth_cons _ _ VUndefined Hlt).
  set (k := nth index (candidates self) VUndefined).
  destruct (get_prop k "xpub") as [xpub|e] eqn:Hxpub; [|exists 0; reflexivity].
  unfold fetch_event. run.
  destruct (IH (keychain_count self - (index + 1)) ltac:(lia) (index + 1) eq_refl)
    as [n Hn].
  destruct (keychains_get (bitgo self) _) as [[record|e]|e];
    try (exists 1; simpl; rewrite (field_get_prop _ _ _ Hxpub); reflexivity).
  destruct (get_prop record "encryptedXprv") as [enc|e];
    [|exists 1; simpl; rewrite (field_get_prop _ _ _ Hxpub); reflexivity].
  destruct (truthy enc);
    [exists 1; simpl; rewrite (field_get_prop _ _ _ Hxpub); reflexivity|].
  exists (S n). simpl. rewrite (field_get_prop _ _ _ Hxpub).
  destruct (tryKeyChain self (index + 1)) as [[q|e] t]; simpl in *;
    rewrite ?app_nil_r, Hn; reflexivity.
Qed.

(** X1: whatever the Keychain Service answers, the resolver only fetches
    keychains of the wallet, each at most once and in the order of the list:
    the calls of a run are the fetches of a prefix of the list. *)
Theorem getEncryptedUserKeychain_fetches_a_prefix (self : Wallet) (params : value) :
  exists n,
    snd (getEncryptedUserKeychain self params)
    = map fetch_event (firstn n (candidates self)).
Proof.
  rewrite getEncryptedUserKeychain_tryKeyChain.
  destruct (tryKeyChain_fetches_prefix self 0) as [n Hn].
  exists n. exact Hn.
Qed.

Lemma tryKeyChain_fulfilled_first (self : Wallet) (index : nat) (k : value) :
  fst (tryKeyChain self index) = Normal (Fulfilled k) ->
  exists pre c post,
    skipn index (candidates self) = pre ++ c :: post
    /\ forallb (unencrypted_candidate (bitgo self)) pre = true
    /\ fetch_record (bitgo self) c = Some k
    /\ carries_encryptedXprv k = Some true.
Proof.
  remember (keychain_count self - index) as m eqn:measure.
  revert index measure.
  induction m as [m IH] using lt_wf_ind; intros index measure.
  rewrite tryKeyChain_body.
  destruct (exhausted self index) eqn:more; [discriminate|].
  pose proof (exhausted_false_lt self index more) as Hcount.
  destruct (exhausted_false_candidates self index more) as (_ & Hlt & ->).
  rewrite (skipn_nth_cons _ _ VUndefined Hlt).
  set (c := nth index (candidates self) VUndefined).
  destruct (get_prop c "xpub") as [xpub|e] eqn:Hxpub; [|discriminate].
  run.
  destruct (keychains_get (bitgo self) (VObject [("xpub", xpub)]))
    as [[record|e]|e] eqn:Hget; try discriminate.
  destruct (get_prop record "encryptedXprv") as [enc|e] eqn:Henc; [|discriminate].
  destruct (truthy enc) eqn:Hpresent.
  - simpl. intros [= <-].
    exists [], c, (skipn (index + 1) (candidates self)).
    unfold fetch_record, carries_encryptedXprv.
    rewrite Hxpub, Hget, Henc, Hpresent. auto.
  - specialize (IH (keychain_count self - (index + 1)) ltac:(lia) (index + 1) eq_refl).
    destruct (tryKeyChain self (index + 1)) as [[q|e] t]; simpl in *;
      [|discriminate].
    intros Hq. destruct (IH Hq) as (pre & c' & post & Hskip & Hpre & Hc & Hk).
    exists (c :: pre), c', post. rewrite Hskip. simpl.
    unfold unencrypted_candidate at 1, fetch_record, carries_encryptedXprv.
    rewrite Hxpub, Hget, Henc, Hpresent. auto.
Qed.

(** X2: a keychain the resolver hands out is the record fetched for one of
    the wallet's keychains, it carries [encryptedXprv], and every keychain
    before it in the list was fetched and carried none. *)
Theorem getEncryptedUserKeychain_returns_first_encrypted
        (self : Wallet) (params k : value) :
  fst (getEncryptedUserKeychain self params) = Normal (Fulfilled k) ->
  exists pre c post,
    candidates self = pre ++ c :: post
    /\ forallb (unencrypted_candidate (bitgo self)) pre = true
    /\ fetch_record (bitgo self) c = Some k
    /\ carries_encryptedXprv k = Some true.
Proof.
  rewrite getEncryptedUserKeychain_tryKeyChain.
  apply (tryKeyChain_fulfilled_first self 0 k).
Qed.

Lemma getEncryptedUserKeychain_returns_first_encrypted_witness :
  exists pre c post,
    [Scenario.refA; Scenario.refB; Scenario.refC] = pre ++ c :: post
    /\ forallb (unencrypted_candidate (Scenario.client Scenario.receipt)) pre = true
    /\ fetch_record (Scenario.client Scenario.receipt) c = Some Scenario.recordB
    /\ carries_encryptedXprv Scenario.recordB = Some true.
Proof.
  apply (getEncryptedUserKeychain_returns_first_encrypted
           Scenario.walletABC VUndefined Scenario.recordB).
  vm_compute. reflexivity.
Defined.

(** The turn of the scan on a candidate whose fetch is rejected. *)
Lemma tryKeyChain_fetch_rejected (self : Wallet) (ks : list value) (index : nat)
      (c : value) (rest : list value) (xpub : value) (e : error) :
  keychains self = Some ks ->
  skipn index ks = c :: rest ->
  get_prop c "xpub" = Normal xpub ->
  keychains_get (bitgo self) (VObject [("xpub", xpub)]) = Normal (Rejected e) ->
  tryKeyChain self index = (Normal (Rejected e), [fetch_event c]).
Proof.
  intros Hks Hskip Hxpub Hget.
  destruct (skipn_cons_nth ks index c rest VUndefined Hskip) as (Hnth & _ & Hlt).
  rewrite tryKeyChain_body.
  unfold exhausted, keychain_at. rewrite Hks, Hnth.
  apply Nat.leb_gt in Hlt. rewrite Hlt, Hxpub.
  unfold fetch_event. rewrite (field_get_prop _ _ _ Hxpub).
  run. rewrite Hget. reflexivity.
Qed.

(** The turn of the scan on an entry whose [xpub] cannot be read. *)
Lemma tryKeyChain_unreadable (self : Wallet) (ks : list value) (index : nat)
      (c : value) (rest : list value) (e : error) :
  keychains self = Some ks ->
  skipn index ks = c :: rest ->
  get_prop c "xpub" = Throw e ->
  tryKeyChain self index = (Throw e, []).
Proof.
  intros Hks Hskip Hxpub.
  destruct (skipn_cons_nth ks index c rest VUndefined Hskip) as (Hnth & _ & Hlt).
  rewrite tryKeyChain_body.
  unfold exhausted, keychain_at. rewrite Hks, Hnth.
  apply Nat.leb_gt in Hlt. rewrite Hlt, Hxpub. reflexivity.
Qed.

Lemma skipn_length_app {A} (pre rest : list A) :
  skipn (0 + List.length pre) (pre ++ rest) = rest.
Proof. simpl. rewrite skipn_app, skipn_all, Nat.sub_diag. reflexivity. Qed.

(** X3: a fetch that the Keychain Service rejects ends the scan: the
    resolver rejects with that very error, and the keychains behind the
    failing one are not fetched, whatever they carry. *)
Theorem getEncryptedUserKeychain_stops_at_rejected_fetch
        (self : Wallet) (params : value)
        (pre : list value) (c : value) (post : list value)
        (xpub : value) (e : error) :
  keychains self = Some (pre ++ c :: post) ->
  forallb (unencrypted_candidate (bitgo self)) pre = true ->
  get_prop c "xpub" = Normal xpub ->
  keychains_get (bitgo self) (VObject [("xpub", xpub)]) = Normal (Rejected e) ->
  getEncryptedUserKeychain self params =
  (Normal (Rejected e), map fetch_event (pre ++ [c])).
Proof.
  intros Hks Hpre Hxpub Hget.
  rewrite getEncryptedUserKeychain_tryKeyChain.
  pose proof (tryKeyChain_fetch_rejected self _ (0 + List.length pre) c post xpub e
                Hks (skipn_length_app pre (c :: post)) Hxpub Hget) as Hstop.
  rewrite (tryKeyChain_scan self _ pre Hks Hpre 0 (c :: post) (Rejected e) eq_refl);
    rewrite Hstop; [|reflexivity].
  simpl. rewrite map_app. reflexivity.
Qed.

(** The service answers for A, without encrypted material, and is down for
    B: the resolver rejects with the outage and never asks for C. *)
Lemma getEncryptedUserKeychain_stops_at_rejected_fetch_witness :
  getEncryptedUserKeychain Failures.wallet_flaky VUndefined =
  (Normal (Rejected Failures.outage),
   map fetch_event ([Scenario.refA] ++ [Scenario.refB])).
Proof.
  apply (getEncryptedUserKeychain_stops_at_rejected_fetch
           Failures.wallet_flaky VUndefined
           [Scenario.refA] Scenario.refB [Scenario.refC] (VString "xpubB"));
    reflexivity.
Defined.

(** X4: an entry of the keychain list that is [null] or [undefined] makes
    reading its [xpub] throw.  When it is the first entry the exception
    escapes [getEncryptedUserKeychain] synchronously; behind other entries
    it is raised inside a continuation and rejects the promise instead.  No
    fetch is made for the entry or for those behind it. *)
Theorem getEncryptedUserKeychain_unreadable_entry
        (self : Wallet) (params : value)
        (pre : list value) (c : value) (post : list value) (e : error) :
  keychains self = Some (pre ++ c :: post) ->
  forallb (unencrypted_candidate (bitgo self)) pre = true ->
  get_prop c "xpub" = Throw e ->
  getEncryptedUserKeychain self params =
  (match pre with
   | [] => Throw e
   | _ :: _ => Normal (Rejected e)
   end,
   map fetch_event pre).
Proof.
  intros Hks Hpre Hxpub.
  rewrite getEncryptedUserKeychain_tryKeyChain.
  pose proof (tryKeyChain_unreadable self _ (0 + List.length pre) c post e
                Hks (skipn_length_app pre (c :: post)) Hxpub) as Hstop.
  destruct pre as [|k pre].
  - exact Hstop.
  - rewrite (tryKeyChain_scan_settled self _ k pre Hks Hpre 0 (c :: post) eq_refl).
    rewrite Hstop. simpl. rewrite app_nil_r. reflexivity.
Qed.

Lemma getEncryptedUserKeychain_unreadable_entry_witness :
  getEncryptedUserKeychain Failures.wallet_null_first VUndefined
  = (Throw (TypeError "Cannot read property 'xpub' of null"), [])
  /\ getEncryptedUserKeychain Failures.wallet_null_second VUndefined
     = (Normal (Rejected (TypeError "Cannot read property 'xpub' of null")),
        [KeychainGet (VObject [("xpub", VString "xpubA")])]).
Proof.
  split.
  - apply (getEncryptedUserKeychain_unreadable_entry
             Failures.wallet_null_first VUndefined [] VNull [Scenario.refB]);
      reflexivity.
  - apply (getEncryptedUserKeychain_unreadable_entry
             Failures.wallet_null_second VUndefined
             [Scenario.refA] VNull [Scenario.refB]);
      reflexivity.
Defined.

(** ** More on the assembler *)

(** [createTransaction] on a request it accepts: the builder is prepared for
    the recipient and with the fee of the request. *)
Lemma createTransaction_accepted (builder : TransactionBuilder) (self : Wallet)
      (params : value) :
  accepted_by_createTransaction params = true ->
  createTransaction builder self params =
  (p <~ call (BuilderPrepare (recipient_of params) (field params "fee"))
             (prepare builder self (recipient_of params) (field params "fee")) ;;
   p <- then_ p (fun tb =>
          call (BuilderSign (field params "keychain"))
               (sign builder tb (field params "keychain"))) ;;
   p <- then_ p (fun tb =>
          match tb with
          | Some tb =>
              tx <~ ret (tb_tx builder tb) ;;
              ret (Normal (Fulfilled
                     (VObject [("tx", tx); ("fee", tb_fee builder tb)])))
          | None => ret (Normal (Fulfilled VUndefined))
          end) ;;
   ret (Normal (nodeify p))).
Proof.
  unfold accepted_by_createTransaction. intros H.
  apply andb_true_iff in H as [H Hpos]. apply andb_true_iff in H as [H Hkeychain].
  apply andb_true_iff in H as [H Hfee]. apply andb_true_iff in H as [Haddress Hamount].
  apply negb_true_iff in Hpos.
  unfold createTransaction. cbv zeta. cbn [validateParams].
  rewrite get_prop_or_empty, Haddress, !bindC_ret_Normal.
  rewrite !get_prop_or_empty, !bindC_ret_Normal.
  rewrite Hamount, Hkeychain, Hpos.
  apply orb_true_iff in Hfee as [Hfee|Hfee]; rewrite Hfee; simpl;
    rewrite ?andb_false_r; reflexivity.
Qed.

Lemma createTransaction_refused
      (builder : TransactionBuilder) (self : Wallet) (params : value) :
  accepted_by_createTransaction params = false ->
  exists e, createTransaction builder self params = (Throw e, []).
Proof.
  unfold accepted_by_createTransaction, createTransaction. cbv zeta.
  cbn [validateParams]. rewrite get_prop_or_empty.
  destruct (present_string (field params "address")).
  2:{ intros _. rewrite bindC_ret_Throw. eexists. reflexivity. }
  rewrite !get_prop_or_empty, !bindC_ret_Normal.
  destruct (typeof (field params "amount") =? "number"),
           (typeof (field params "fee") =? "number"),
           (typeof (field params "fee") =? "undefined"),
           (typeof (field params "keychain") =? "object"),
           (num_le0 (number_of (field params "amount")));
    simpl; try discriminate; intros _; eexists; reflexivity.
Qed.

(** X5: [createTransaction] calls the builder exactly for the requests that
    pass its checks: an address, an amount that is a number and not [<= 0],
    a fee that is a number or absent, and a keychain of type object.  It
    then starts by preparing the builder for [{address, amount}] with the
    fee of the request; every other request makes it throw before any
    call. *)
Theorem createTransaction_calls_builder_iff_accepted
        (builder : TransactionBuilder) (self : Wallet) (params : value) :
  (accepted_by_createTransaction params = true ->
   exists t,
     snd (createTransaction builder self params)
     = BuilderPrepare (recipient_of params) (field params "fee") :: t)
  /\ (accepted_by_createTransaction params = false ->
      exists e, createTransaction builder self params = (Throw e, [])).
Proof.
  split.
  - intros Haccepted. rewrite (createTransaction_accepted _ _ _ Haccepted).
    rewrite bindC_call. cbn [snd]. eexists. reflexivity.
  - apply createTransaction_refused.
Qed.

(** X6: when [createTransaction] fulfils its promise, the builder was
    prepared and then asked to sign, once each, and both succeeded.  The
    value is [undefined] when [sign] produced nothing, and otherwise the
    [tx()] and the [fee] of the signed builder: the fee of the result is the
    builder's, not the fee of the request. *)
Theorem createTransaction_fulfilled_by_signed_builder
        (builder : TransactionBuilder) (self : Wallet)
        (params transaction : value) :
  fst (createTransaction builder self params) = Normal (Fulfilled transaction) ->
  exists (tb : builder_state builder) (signed : option (builder_state builder)),
    prepare builder self (recipient_of params) (field params "fee")
    = Normal (Fulfilled tb)
    /\ sign builder tb (field params "keychain") = Normal (Fulfilled signed)
    /\ match signed with
       | Some tb' =>
           exists tx, tb_tx builder tb' = Normal tx
                      /\ transaction
                         = VObject [("tx", tx); ("fee", tb_fee builder tb')]
       | None => transaction = VUndefined
       end
    /\ snd (createTransaction builder self params)
       = [BuilderPrepare (recipient_of params) (field params "fee");
          BuilderSign (field params "keychain")].
Proof.
  intros Hfulfilled.
  destruct (accepted_by_createTransaction params) eqn:Haccepted.
  2:{ destruct (createTransaction_refused builder self params Haccepted)
        as [e He].
      rewrite He in Hfulfilled. discriminate. }
  rewrite (createTransaction_accepted _ _ _ Haccepted) in Hfulfilled |- *.
  destruct (prepare builder self _ _) as [[tb|e]|e] eqn:Hprepare;
    try discriminate.
  run.
  destruct (sign builder tb (field params "keychain")) as [[signed|e]|e] eqn:Hsign;
    try discriminate.
  exists tb, signed. split; [reflexivity|]. split; [exact Hsign|].
  destruct signed as [tb'|]; simpl in *.
  - destruct (tb_tx builder tb') as [tx|e] eqn:Htx; [|discriminate].
    simpl in *. injection Hfulfilled as <-. split; [|reflexivity].
    exists tx. split; reflexivity.
  - injection Hfulfilled as <-. split; reflexivity.
Qed.

Lemma createTransaction_fulfilled_by_signed_builder_witness :
  exists (tb : bool) (signed : option bool),
    prepare Scenario.signing_builder Scenario.wallet1
      (recipient_of Requests.assemble_with_fee) (VNumber (Finite 5))
    = Normal (Fulfilled tb)
    /\ sign Scenario.signing_builder tb
         (field Requests.assemble_with_fee "keychain")
       = Normal (Fulfilled signed)
    /\ match signed with
       | Some tb' =>
           exists tx,
             tb_tx Scenario.signing_builder tb' = Normal tx
             /\ VObject [("tx", VString "deadbeef"); ("fee", VNumber (Finite 1000))]
                = VObject [("tx", tx); ("fee", tb_fee Scenario.signing_builder tb')]
       | None =>
           VObject [("tx", VString "deadbeef"); ("fee", VNumber (Finite 1000))]
           = VUndefined
       end
    /\ snd (createTransaction Scenario.signing_builder Scenario.wallet1
              Requests.assemble_with_fee)
       = [BuilderPrepare (recipient_of Requests.assemble_with_fee)
            (VNumber (Finite 5));
          BuilderSign (field Requests.assemble_with_fee "keychain")].
Proof.
  apply (createTransaction_fulfilled_by_signed_builder
           Scenario.signing_builder Scenario.wallet1 Requests.assemble_with_fee
           (VObject [("tx", VString "deadbeef"); ("fee", VNumber (Finite 1000))])).
  vm_compute. reflexivity.
Defined.

(** ** More on the broadcaster *)

(** X7: given a [tx], [sendTransaction] posts [{tx}] to [/tx/send] once and
    does nothing else.  An exception of the transport escapes and a
    rejection passes through unchanged.  A response is mapped to exactly
    [{tx: transaction, hash: transactionHash}]: the other fields of the
    response are dropped, a field the response lacks is [undefined] in the
    result, and a response that is [undefined] or [null] rejects the promise
    with the [TypeError] of reading its [transaction]. *)
Theorem sendTransaction_maps_response (self : Wallet) (params : value) :
  present_string (field params "tx") = true ->
  sendTransaction self params =
  (match post (bitgo self) (url (bitgo self) "/tx/send") (payload_of params) with
   | Throw e => Throw e
   | Normal (Rejected e) => Normal (Rejected e)
   | Normal (Fulfilled body) =>
       match get_prop body "transaction" with
       | Throw e => Normal (Rejected e)
       | Normal _ =>
           Normal (Fulfilled (VObject [("tx", field body "transaction");
                                       ("hash", field body "transactionHash")]))
       end
   end,
   [Post (url (bitgo self) "/tx/send") (payload_of params)]).
Proof.
  intros Htx. unfold sendTransaction, payload_of. cbv zeta.
  cbn [validateParams]. rewrite !get_prop_or_empty, Htx, !bindC_ret_Normal.
  rewrite bindC_call.
  destruct (post (bitgo self) _ _) as [[body|e]|e]; try reflexivity.
  rewrite bindC_ret_Normal, then_Fulfilled. cbn [fst snd bind ret nodeify].
  destruct (get_prop body "transaction") as [x|e] eqn:Hx.
  - rewrite bindC_ret_Normal, (get_prop_defined _ _ "transactionHash" _ Hx).
    rewrite bindC_ret_Normal, (field_get_prop _ _ _ Hx). reflexivity.
  - rewrite bindC_ret_Throw. reflexivity.
Qed.

(** A response without the two fields still fulfils the promise. *)
Lemma sendTransaction_maps_response_witness :
  sendTransaction Requests.wallet_bare_response Requests.send_deadbeef
  = (Normal (Fulfilled (VObject [("tx", VUndefined); ("hash", VUndefined)])),
     [Post "https://test.bitgo.com/api/v1/tx/send"
        (VObject [("tx", VString "deadbeef")])]).
Proof.
  apply (sendTransaction_maps_response Requests.wallet_bare_response
           Requests.send_deadbeef).
  reflexivity.
Defined.

(** ** More on the spend *)

Lemma bindC_pair_Normal {A B} (a : A) (t : list event)
      (f : A -> Eff (completion B)) :
  bindC (Normal a, t) f = (fst (f a), t ++ snd (f a)).
Proof. unfold bindC, bind. destruct (f a). reflexivity. Qed.

Lemma bind_pair {A B} (a : A) (t : list event) (f : A -> Eff B) :
  bind (a, t) f = (fst (f a), t ++ snd (f a)).
Proof. unfold bind. destruct (f a). reflexivity. Qed.

Lemma decryptAndCreate_reads_three_fields
      (builder : TransactionBuilder) (self : Wallet) (params params' k : value) :
  field params "address" = field params' "address" ->
  field params "amount" = field params' "amount" ->
  field params "walletPassphrase" = field params' "walletPassphrase" ->
  decryptAndCreate builder self (or_empty params) k
  = decryptAndCreate builder self (or_empty params') k.
Proof.
  intros Haddress Hamount Hpassphrase. unfold decryptAndCreate.
  rewrite !get_prop_or_empty, Haddress, Hamount, Hpassphrase. reflexivity.
Qed.

(** X8: [sendCoins] reads three fields of its request and nothing else: two
    requests with the same [address], [amount] and [walletPassphrase] give
    the same run, calls and outcome.  In particular a [fee] in the request
    has no effect. *)
Theorem sendCoins_reads_three_fields
        (builder : TransactionBuilder) (self : Wallet) (params params' : value) :
  field params "address" = field params' "address" ->
  field params "amount" = field params' "amount" ->
  field params "walletPassphrase" = field params' "walletPassphrase" ->
  sendCoins builder self params = sendCoins builder self params'.
Proof.
  intros Haddress Hamount Hpassphrase.
  rewrite !sendCoins_checks. cbn [validateParams].
  rewrite !get_prop_or_empty, Haddress, Hamount, Hpassphrase.
  destruct (present_string (field params' "address")); [|reflexivity].
  destruct (present_string (field params' "walletPassphrase")); [|reflexivity].
  destruct (negb _); [reflexivity|].
  destruct (num_le0 _); [reflexivity|].
  destruct (getEncryptedUserKeychain self VUndefined) as [[[k|e]|e] t];
    try reflexivity.
  rewrite !bindC_pair_Normal, !then_Fulfilled.
  rewrite (decryptAndCreate_reads_three_fields builder self params params' k
             Haddress Hamount Hpassphrase).
  reflexivity.
Qed.

(** A request that also names a fee and a keychain runs as the plain one. *)
Lemma sendCoins_reads_three_fields_witness :
  sendCoins Scenario.signing_builder Scenario.wallet1 Requests.spend_with_fee
  = sendCoins Scenario.signing_builder Scenario.wallet1
      (Scenario.request (VNumber (Finite 100000)) "correct").
Proof.
  apply (sendCoins_reads_three_fields Scenario.signing_builder Scenario.wallet1
           Requests.spend_with_fee
           (Scenario.request (VNumber (Finite 100000)) "correct"));
    reflexivity.
Defined.

Lemma in_order_resolving_fetches (t rest : list event) :
  forallb is_fetch t = true ->
  in_order ResolvingKeychain (t ++ rest) = in_order ResolvingKeychain rest.
Proof.
  induction t as [|[] t IH]; simpl; try discriminate; auto.
Qed.

Lemma in_order_idle_fetches (t rest : list event) :
  forallb is_fetch t = true ->
  t <> [] ->
  in_order Idle (t ++ rest) = in_order ResolvingKeychain rest.
Proof.
  destruct t as [|[] t]; simpl; try discriminate; try congruence.
  intros Hfetch _. apply in_order_resolving_fetches. exact Hfetch.
Qed.

Lemma in_order_only_fetches (t : list event) :
  forallb is_fetch t = true -> in_order Idle t = true.
Proof.
  destruct t as [|[] t]; simpl; try discriminate; try reflexivity.
  intros Hfetch. rewrite <- (app_nil_r t).
  rewrite in_order_resolving_fetches by exact Hfetch. reflexivity.
Qed.

(** A keychain is only returned after a fetch. *)
Lemma getEncryptedUserKeychain_fulfilled_fetched (self : Wallet)
      (params k : value) (t : list event) :
  getEncryptedUserKeychain self params = (Normal (Fulfilled k), t) -> t <> [].
Proof.
  rewrite getEncryptedUserKeychain_tryKeyChain, tryKeyChain_body.
  destruct (exhausted self 0) eqn:more; [discriminate|].
  destruct (get_prop (keychain_at self 0) "xpub") as [xpub|e]; [|discriminate].
  run.
  destruct (keychains_get (bitgo self) _) as [[record|e]|e]; try discriminate.
  destruct (get_prop record "encryptedXprv") as [enc|e]; [|discriminate].
  destruct (truthy enc); [intros [= _ <-]; discriminate|].
  destruct (tryKeyChain self 1) as [[q|e] t']; simpl;
    intros [= _ <-]; discriminate.
Qed.

(** The calls of the two last continuations: at most one broadcast, and only
    of a transaction that was assembled. *)
Lemma sendAssembled_trace (self : Wallet) (transaction : value) :
  snd (sendAssembled self transaction) = []
  \/ exists body, snd (sendAssembled self transaction)
                  = [Post (url (bitgo self) "/tx/send") body].
Proof.
  unfold sendAssembled, sendTransaction. cbv zeta.
  destruct (get_prop transaction "tx") as [tx|e]; [|left; reflexivity].
  rewrite bindC_ret_Normal.
  change (or_empty (VObject ?ps)) with (VObject ps).
  cbn [validateParams get_prop lookup String.eqb Ascii.eqb Bool.eqb].
  destruct (present_string tx); [|left; reflexivity].
  rewrite !bindC_ret_Normal, bindC_call. right. eexists. cbn [snd]. f_equal.
  destruct (post (bitgo self) _ _) as [[body|e]|e]; try reflexivity.
  rewrite bindC_ret_Normal, then_Fulfilled. cbn [fst snd bind ret].
  destruct (get_prop body "transaction") as [x|e]; [|reflexivity].
  rewrite bindC_ret_Normal.
  destruct (get_prop body "transactionHash") as [h|e]; reflexivity.
Qed.

Lemma report_trace (transaction result : value) :
  snd (report transaction result) = [].
Proof.
  unfold report.
  destruct (get_prop result "tx") as [tx|e]; [|reflexivity].
  rewrite bindC_ret_Normal.
  destruct (get_prop result "hash") as [h|e]; [|reflexivity].
  rewrite bindC_ret_Normal.
  destruct (get_prop transaction "fee") as [fee|e]; reflexivity.
Qed.

Lemma then_trace {A B} (p : promise A) (f : A -> Eff (completion (promise B))) :
  snd (then_ p f) = match p with
                    | Fulfilled a => snd (f a)
                    | Rejected _ => []
                    end.
Proof.
  destruct p as [a|e]; [|reflexivity]. rewrite then_Fulfilled. reflexivity.
Qed.

(** The calls of [createTransaction]: [prepare], then [sign] when [prepare]
    succeeded; a fulfilled promise means that both were called. *)
Lemma createTransaction_trace (builder : TransactionBuilder) (self : Wallet)
      (params : value) :
  (snd (createTransaction builder self params) = []
   /\ (exists e, fst (createTransaction builder self params) = Throw e))
  \/ (exists recipient fee,
        snd (createTransaction builder self params)
        = [BuilderPrepare recipient fee]
        /\ forall x, fst (createTransaction builder self params)
                     <> Normal (Fulfilled x))
  \/ (exists recipient fee keychain,
        snd (createTransaction builder self params)
        = [BuilderPrepare recipient fee; BuilderSign keychain]).
Proof.
  destruct (accepted_by_createTransaction params) eqn:Haccepted.
  2:{ left. destruct (createTransaction_refused builder self params Haccepted)
        as [e ->]. split; [reflexivity|]. exists e. reflexivity. }
  right. rewrite (createTransaction_accepted _ _ _ Haccepted).
  destruct (prepare builder self _ _) as [[tb|e]|e];
    try (left; eexists; eexists; split; [reflexivity|intros x; discriminate]).
  right. run.
  destruct (sign builder tb _) as [[[tb'|]|e]|e]; simpl;
    try (eexists; eexists; eexists; reflexivity).
  destruct (tb_tx builder tb') as [tx|e]; eexists; eexists; eexists; reflexivity.
Qed.

(** The calls of a spend behind the resolver, from the decryption on. *)
Lemma spend_tail_in_order (builder : TransactionBuilder) (self : Wallet)
      (params k : value) :
  in_order ResolvingKeychain
    (let created := decryptAndCreate builder self (or_empty params) k in
     let p := settled (fst created) in
     let sent := then_ p (sendAssembled self) in
     let reported := then_ (fst sent) (report (assigned p)) in
     snd created ++ snd sent ++ snd reported) = true.
Proof.
  cbv zeta.
  assert (snd (then_ (fst (then_ (settled (fst (decryptAndCreate builder self
                                                  (or_empty params) k)))
                             (sendAssembled self)))
                 (report (assigned (settled (fst (decryptAndCreate builder self
                                                    (or_empty params) k))))))
          = []) as ->.
  { rewrite then_trace. destruct (fst (then_ _ _)); [apply report_trace|reflexivity]. }
  rewrite app_nil_r, then_trace.
  unfold decryptAndCreate.
  destruct (get_prop (or_empty params) "walletPassphrase") as [password|e];
    [rewrite bindC_ret_Normal|reflexivity].
  destruct (get_prop k "encryptedXprv") as [opaque|e];
    [rewrite bindC_ret_Normal|reflexivity].
  cbv zeta. rewrite bindC_call.
  destruct (decrypt (bitgo self) _) as [xprv|e]; [|reflexivity].
  rewrite bindC_ret_Normal. simpl (fst (ret _)). simpl (snd (ret _)).
  rewrite bind_pair.
  destruct (set_prop k "xprv" xprv) as [keychain|e]; [|reflexivity].
  destruct (get_prop (or_empty params) "address") as [address|e];
    [rewrite bindC_ret_Normal|reflexivity].
  destruct (get_prop (or_empty params) "amount") as [amount|e];
    [rewrite bindC_ret_Normal|reflexivity].
  cbn [fst snd app].
  destruct (createTransaction_trace builder self
              (VObject [("address", address); ("amount", amount);
                        ("keychain", keychain)]))
    as [[-> [e ->]]|[(recipient & fee & -> & Hnot)|(recipient & fee & kc & ->)]].
  - reflexivity.
  - destruct (fst (createTransaction _ _ _)) as [[x|e]|e]; try reflexivity.
    destruct (Hnot x eq_refl).
  - destruct (settled _) as [transaction|e]; [|reflexivity].
    destruct (sendAssembled_trace self transaction) as [->|[body ->]];
      reflexivity.
Qed.

(** X9: the calls of a spend come in the order of the pipeline, whatever the
    request and whatever the collaborators answer: fetches of keychains
    first, then at most one decryption, one [prepare], one [sign] and one
    broadcast, each only after the one before it.  So nothing is decrypted
    before a keychain was fetched, nothing is signed that was not prepared,
    nothing is broadcast that was not signed, and nothing is ever sent
    twice. *)
Theorem sendCoins_calls_in_order
        (builder : TransactionBuilder) (self : Wallet) (params : value) :
  in_order Idle (snd (sendCoins builder self params)) = true.
Proof.
  destruct (valid_request params) eqn:Hvalid.
  2:{ destruct (sendCoins_invalid builder self params Hvalid) as [e ->].
      reflexivity. }
  pose proof (getEncryptedUserKeychain_fetches self VUndefined) as Hfetch.
  destruct (getEncryptedUserKeychain self VUndefined) as [[[k|e]|e] t] eqn:Hk;
    cbn [snd] in Hfetch.
  - rewrite (sendCoins_resolved _ _ _ _ _ Hvalid Hk). cbv zeta. cbn [snd].
    rewrite (in_order_idle_fetches t _ Hfetch
               (getEncryptedUserKeychain_fulfilled_fetched _ _ _ _ Hk)).
    apply (spend_tail_in_order builder self params k).
  - rewrite (sendCoins_unresolved _ _ _ _ _ Hvalid Hk).
    apply in_order_only_fetches. exact Hfetch.
  - rewrite (sendCoins_valid _ _ _ Hvalid), Hk. cbn.
    rewrite app_nil_r. apply in_order_only_fetches. exact Hfetch.
Qed.

(** X10: [sendCoins] throws, instead of returning a promise, in two cases
    only: the request fails the synchronous checks, or the resolver itself
    throws, which it does when the wallet has no keychain to try, so that
    the call of [self.reject] is made at once, when the first entry of the
    keychain list cannot be read, or when its fetch throws.  Every other
    failure is a rejection of the promise. *)
Theorem sendCoins_throws_iff
        (builder : TransactionBuilder) (self : Wallet) (params : value) :
  (exists e, fst (sendCoins builder self params) = Throw e)
  <-> valid_request params = false
      \/ exists e, fst (getEncryptedUserKeychain self VUndefined) = Throw e.
Proof.
  split.
  - intros [e He].
    destruct (valid_request params) eqn:Hvalid; [right|left; reflexivity].
    rewrite (sendCoins_valid _ _ _ Hvalid) in He.
    destruct (getEncryptedUserKeychain self VUndefined) as [[p|e'] t].
    + rewrite bindC_pair_Normal in He. cbn [fst] in He.
      rewrite !fst_bind in He. discriminate.
    + exists e'. reflexivity.
  - intros [Hinvalid|[e He]].
    + destruct (sendCoins_invalid builder self params Hinvalid) as [e ->].
      exists e. reflexivity.
    + destruct (valid_request params) eqn:Hvalid.
      * rewrite (sendCoins_valid _ _ _ Hvalid).
        destruct (getEncryptedUserKeychain self VUndefined) as [[p|e'] t];
          [discriminate|].
        exists e'. reflexivity.
      * destruct (sendCoins_invalid builder self params Hvalid) as [e' ->].
        exists e'. reflexivity.
Qed.

Lemma createTransaction_never_broadcasts (builder : TransactionBuilder)
      (self : Wallet) (params : value) :
  existsb is_broadcast (snd (createTransaction builder self params)) = false.
Proof.
  destruct (createTransaction_trace builder self params)
    as [[-> _]|[(recipient & fee & -> & _)|(recipient & fee & kc & ->)]];
    reflexivity.
Qed.

(** X11: a failure of the assembler, be it thrown by [createTransaction] or
    a rejection of [prepare], [sign] or [tx()], reaches the caller of
    [sendCoins] unchanged, as the rejection of its promise, and the spend
    stops there: nothing is broadcast. *)
Theorem sendCoins_surfaces_assembly_failure
        (builder : TransactionBuilder) (self : Wallet)
        (params k xprv : value) (t t1 : list event)
        (c : completion (promise value)) (e : error) :
  valid_request params = true ->
  getEncryptedUserKeychain self VUndefined = (Normal (Fulfilled k), t) ->
  decrypt (bitgo self) (secret_of params k) = Normal xprv ->
  createTransaction builder self (assembly_params params (unlocked k xprv))
  = (c, t1) ->
  settled c = Rejected e ->
  sendCoins builder self params
  = (Normal (Rejected e), t ++ Decrypt (secret_of params k) :: t1)
  /\ existsb is_broadcast (snd (sendCoins builder self params)) = false.
Proof.
  intros Hvalid Hk Hopen Hcreated Hfailed.
  pose proof (getEncryptedUserKeychain_fulfilled _ _ _ _ Hk) as Hcarries.
  pose proof (createTransaction_never_broadcasts builder self
                (assembly_params params (unlocked k xprv))) as Hquiet.
  pose proof (getEncryptedUserKeychain_fetches self VUndefined) as Hfetch.
  rewrite Hk in Hfetch. cbn [snd] in Hfetch.
  apply fetches_only in Hfetch as [_ Hp].
  rewrite (sendCoins_resolved _ _ _ _ _ Hvalid Hk).
  rewrite (decryptAndCreate_unlocked builder self params k xprv Hcarries Hopen).
  rewrite Hcreated in Hquiet |- *. cbv zeta. cbn [fst snd] in Hquiet |- *.
  rewrite Hfailed. cbn [then_ ret fst snd assigned].
  rewrite !app_nil_r. split; [reflexivity|].
  rewrite existsb_app, Hp. simpl. exact Hquiet.
Qed.

(** A builder that cannot fund the transaction. *)
Lemma sendCoins_surfaces_assembly_failure_witness :
  sendCoins Failures.unfunded_builder Scenario.wallet1
    (Scenario.request (VNumber (Finite 100000)) "correct")
  = (Normal (Rejected Failures.unfunded),
     [KeychainGet (VObject [("xpub", VString "xpub1")])]
     ++ Decrypt (secret_of (Scenario.request (VNumber (Finite 100000)) "correct")
                   Scenario.record1)
        :: [BuilderPrepare
              (recipient_of (Scenario.request (VNumber (Finite 100000)) "correct"))
              VUndefined])
  /\ existsb is_broadcast
       (snd (sendCoins Failures.unfunded_builder Scenario.wallet1
               (Scenario.request (VNumber (Finite 100000)) "correct")))
     = false.
Proof.
  apply (sendCoins_surfaces_assembly_failure Failures.unfunded_builder
           Scenario.wallet1
           (Scenario.request (VNumber (Finite 100000)) "correct")
           Scenario.record1 (VString "xprv")
           [KeychainGet (VObject [("xpub", VString "xpub1")])]
           [BuilderPrepare
              (recipient_of (Scenario.request (VNumber (Finite 100000)) "correct"))
              VUndefined]
           (Normal (Rejected Failures.unfunded)) Failures.unfunded);
    vm_compute; reflexivity.
Defined.

Lemma present_field_get_prop (v : value) (name : string) :
  present_string (field v name) = true ->
  get_prop v name = Normal (field v name).
Proof.
  unfold field, or_empty.
  destruct v as [| |b|n|s|properties]; simpl; try discriminate;
    try reflexivity.
  - destruct b; simpl; discriminate.
  - destruct n as [| |q]; simpl; try discriminate.
    destruct (Qeq_bool q 0); simpl; discriminate.
  - destruct (s =? ""); simpl; discriminate.
Qed.

(** X12: a rejection of the broadcast endpoint reaches the caller of
    [sendCoins] unchanged; the endpoint was called once, with the assembled
    [tx], and the spend is not retried. *)
Theorem sendCoins_surfaces_broadcast_failure
        (builder : TransactionBuilder) (self : Wallet)
        (params k xprv transaction : value) (t t1 : list event) (e : error) :
  valid_request params = true ->
  getEncryptedUserKeychain self VUndefined = (Normal (Fulfilled k), t) ->
  decrypt (bitgo self) (secret_of params k) = Normal xprv ->
  createTransaction builder self (assembly_params params (unlocked k xprv))
  = (Normal (Fulfilled transaction), t1) ->
  present_string (field transaction "tx") = true ->
  post (bitgo self) (url (bitgo self) "/tx/send") (payload_of transaction)
  = Normal (Rejected e) ->
  sendCoins builder self params
  = (Normal (Rejected e),
     t ++ Decrypt (secret_of params k)
       :: t1 ++ [Post (url (bitgo self) "/tx/send") (payload_of transaction)]).
Proof.
  intros Hvalid Hk Hopen Hcreated Htx Hpost.
  pose proof (getEncryptedUserKeychain_fulfilled _ _ _ _ Hk) as Hcarries.
  rewrite (sendCoins_resolved _ _ _ _ _ Hvalid Hk).
  rewrite (decryptAndCreate_unlocked builder self params k xprv Hcarries Hopen).
  rewrite Hcreated. cbv zeta. cbn [fst snd settled assigned].
  rewrite then_Fulfilled. unfold sendAssembled, sendTransaction. cbv zeta.
  rewrite (present_field_get_prop _ _ Htx), bindC_ret_Normal.
  change (or_empty (VObject ?ps)) with (VObject ps).
  cbn [validateParams get_prop lookup String.eqb Ascii.eqb Bool.eqb].
  rewrite Htx, !bindC_ret_Normal, bindC_call.
  fold (payload_of transaction). rewrite Hpost.
  rewrite bindC_ret_Normal. run. rewrite ?app_nil_r. reflexivity.
Qed.

(** The endpoint is down. *)
Lemma sendCoins_surfaces_broadcast_failure_witness :
  sendCoins Scenario.signing_builder Failures.wallet_offline
    (Scenario.request (VNumber (Finite 100000)) "correct")
  = (Normal (Rejected Failures.outage),
     [KeychainGet (VObject [("xpub", VString "xpub1")])]
     ++ Decrypt (secret_of (Scenario.request (VNumber (Finite 100000)) "correct")
                   Scenario.record1)
        :: [BuilderPrepare
              (recipient_of (Scenario.request (VNumber (Finite 100000)) "correct"))
              VUndefined;
            BuilderSign (unlocked Scenario.record1 (VString "xprv"))]
           ++ [Post "https://test.bitgo.com/api/v1/tx/send"
                 (payload_of (VObject [("tx", VString "deadbeef");
                                       ("fee", VNumber (Finite 1000))]))]).
Proof.
  apply (sendCoins_surfaces_broadcast_failure Scenario.signing_builder
           Failures.wallet_offline
           (Scenario.request (VNumber (Finite 100000)) "correct")
           Scenario.record1 (VString "xprv")
           (VObject [("tx", VString "deadbeef"); ("fee", VNumber (Finite 1000))])
           [KeychainGet (VObject [("xpub", VString "xpub1")])]
           [BuilderPrepare
              (recipient_of (Scenario.request (VNumber (Finite 100000)) "correct"))
              VUndefined;
            BuilderSign (unlocked Scenario.record1 (VString "xprv"))]
           Failures.outage);
    vm_compute; reflexivity.
Defined.

(** X13: the checks on the amount let [NaN] and [Infinity] through: such an
    amount is a number and is not [<= 0].  The spend goes on, and once the
    keychain is unlocked the builder is prepared with that amount. *)
Theorem sendCoins_accepts_NaN_amount
        (builder : TransactionBuilder) (self : Wallet)
        (params k xprv : value) (n : number) (t : list event) :
  required_present params = true ->
  field params "amount" = VNumber n ->
  n = NaN \/ n = Infinity false ->
  getEncryptedUserKeychain self VUndefined = (Normal (Fulfilled k), t) ->
  decrypt (bitgo self) (secret_of params k) = Normal xprv ->
  exists t',
    snd (sendCoins builder self params)
    = t ++ Decrypt (secret_of params k)
        :: BuilderPrepare
             (VObject [("address", field params "address"); ("amount", VNumber n)])
             VUndefined
        :: t'.
Proof.
  intros Hreq Hamount Hn Hk Hopen.
  assert (valid_request params = true) as Hvalid.
  { unfold valid_request. rewrite Hreq, Hamount.
    destruct Hn as [-> | ->]; reflexivity. }
  pose proof (getEncryptedUserKeychain_fulfilled _ _ _ _ Hk) as Hcarries.
  destruct (get_prop_encrypted k Hcarries) as (_ & _ & Hset).
  destruct (Hset xprv) as [_ Hobject].
  rewrite (sendCoins_resolved _ _ _ _ _ Hvalid Hk).
  rewrite (decryptAndCreate_unlocked builder self params k xprv Hcarries Hopen).
  rewrite (createTransaction_assembly _ _ _ _ Hvalid Hobject).
  rewrite bindC_call. cbv zeta. cbn [fst snd].
  unfold recipient_of. rewrite Hamount.
  eexists. simpl. reflexivity.
Qed.

Lemma sendCoins_accepts_NaN_amount_witness :
  exists t',
    snd (sendCoins Scenario.signing_builder Scenario.wallet1
           (Scenario.request (VNumber NaN) "correct"))
    = [KeychainGet (VObject [("xpub", VString "xpub1")])]
      ++ Decrypt (secret_of (Scenario.request (VNumber NaN) "correct")
                    Scenario.record1)
         :: BuilderPrepare
              (VObject [("address", VString "1ABC"); ("amount", VNumber NaN)])
              VUndefined
         :: t'.
Proof.
  apply (sendCoins_accepts_NaN_amount Scenario.signing_builder Scenario.wallet1
           (Scenario.request (VNumber NaN) "correct")
           Scenario.record1 (VString "xprv") NaN
           [KeychainGet (VObject [("xpub", VString "xpub1")])]);
    try reflexivity.
  left. reflexivity.
Defined.

(** X14: a spend whose promise is fulfilled has made exactly these calls:
    the fetches of the resolver, one decryption of the blob of the resolved
    keychain under the passphrase of the request, one [prepare] for
    [{address, amount}] without a fee, one [sign] with the resolved keychain
    carrying the decrypted key as [xprv], and one broadcast of [{tx}]. *)
Theorem sendCoins_fulfilled_calls
        (builder : TransactionBuilder) (self : Wallet) (params r : value) :
  fst (sendCoins builder self params) = Normal (Fulfilled r) ->
  exists (k xprv tx : value) (t : list event),
    getEncryptedUserKeychain self VUndefined = (Normal (Fulfilled k), t)
    /\ decrypt (bitgo self) (secret_of params k) = Normal xprv
    /\ snd (sendCoins builder self params)
       = t ++ [Decrypt (secret_of params k);
               BuilderPrepare (recipient_of params) VUndefined;
               BuilderSign (unlocked k xprv);
               Post (url (bitgo self) "/tx/send") (VObject [("tx", tx)])].
Proof.
  intros Hr.
  destruct (valid_request params) eqn:Hvalid.
  2:{ destruct (sendCoins_invalid builder self params Hvalid) as [e He].
      rewrite He in Hr. discriminate. }
  destruct (getEncryptedUserKeychain self VUndefined) as [[[k|e]|e] t] eqn:Hk.
  2:{ rewrite (sendCoins_unresolved _ _ _ _ _ Hvalid Hk) in Hr. discriminate. }
  2:{ rewrite (sendCoins_valid _ _ _ Hvalid), Hk in Hr. discriminate. }
  pose proof (getEncryptedUserKeychain_fulfilled _ _ _ _ Hk) as Hcarries.
  destruct (get_prop_encrypted k Hcarries) as (_ & _ & Hset).
  rewrite (sendCoins_resolved _ _ _ _ _ Hvalid Hk) in Hr |- *.
  destruct (decrypt (bitgo self) (secret_of params k)) as [xprv|e] eqn:Hopen.
  2:{ rewrite (decryptAndCreate_locked builder self params k e Hcarries Hopen)
        in Hr. discriminate. }
  destruct (Hset xprv) as [_ Hobject].
  rewrite (decryptAndCreate_unlocked builder self params k xprv Hcarries Hopen)
    in Hr |- *.
  rewrite (createTransaction_assembly _ _ _ _ Hvalid Hobject) in Hr |- *.
  exists k, xprv.
  destruct (prepare builder self _ _) as [[tb|e]|e]; try discriminate.
  run.
  destruct (sign builder tb _) as [[[tb'|]|e]|e]; try discriminate.
  simpl in *.
  destruct (tb_tx builder tb') as [tx|e]; try discriminate.
  simpl in *. exists tx, t. split; [reflexivity|]. split; [exact Hopen|].
  unfold sendAssembled, sendTransaction, report in *. run.
  destruct (present_string tx); try discriminate. simpl in *.
  destruct (post (bitgo self) _ _) as [[body|e]|e]; try discriminate.
  simpl in *.
  destruct (get_prop body "transaction") as [x|e]; try discriminate.
  simpl in *.
  destruct (get_prop body "transactionHash") as [h|e]; try discriminate.
  simpl in *. rewrite ?app_nil_r. reflexivity.
Qed.

Lemma sendCoins_fulfilled_calls_witness :
  exists (k xprv tx : value) (t : list event),
    getEncryptedUserKeychain Scenario.wallet1 VUndefined
    = (Normal (Fulfilled k), t)
    /\ decrypt (bitgo Scenario.wallet1)
         (secret_of (Scenario.request (VNumber (Finite 100000)) "correct") k)
       = Normal xprv
    /\ snd (sendCoins Scenario.signing_builder Scenario.wallet1
              (Scenario.request (VNumber (Finite 100000)) "correct"))
       = t ++ [Decrypt (secret_of
                          (Scenario.request (VNumber (Finite 100000)) "correct") k);
               BuilderPrepare
                 (recipient_of
                    (Scenario.request (VNumber (Finite 100000)) "correct"))
                 VUndefined;
               BuilderSign (unlocked k xprv);
               Post (url (bitgo Scenario.wallet1) "/tx/send")
                 (VObject [("tx", tx)])].
Proof.
  apply (sendCoins_fulfilled_calls Scenario.signing_builder Scenario.wallet1
           (Scenario.request (VNumber (Finite 100000)) "correct")
           (VObject [("tx", VString "deadbeef"); ("hash", VString "h1");
                     ("fee", VNumber (Finite 1000))])).
  vm_compute. reflexivity.
Defined.

(** ** The decrypted key in the store *)

Lemma tryKeyChain_in_store_body (service : KeychainService) (self : Wallet)
      (index : nat) (h : store) :
  tryKeyChain_in_store service self index h =
  if exhausted self index
  then ret_in (reject "No encrypted keychains on this wallet.") h
  else
    (xpub <~~ ret_in (get_prop (keychain_at self index) "xpub") ;;
     let params := VObject [("xpub", xpub)] in
     p <~~ fetch service params ;;
     q <-- then_in p (fun keychain =>
             encryptedXprv <~~ read keychain "encryptedXprv" ;;
             if truthy encryptedXprv then ret_in (Normal (Fulfilled keychain))
             else tryKeyChain_in_store service self (index + 1)) ;;
     ret_in (Normal (nodeify q))) h.
Proof.
  rewrite tryKeyChain_in_store_equation_1.
  generalize (Logic.inspect (exhausted self index)).
  intros [[] known].
  - rewrite tryKeyChain_in_store_clause_1_equation_1, known. reflexivity.
  - rewrite tryKeyChain_in_store_clause_1_equation_2, known. reflexivity.
Qed.

(** The keychain at the location the resolver returns carries encrypted
    private material, in the store the resolver leaves. *)
Lemma tryKeyChain_in_store_fulfilled (service : KeychainService) (self : Wallet)
      (index : nat) (h : store) (l : location) :
  outcome (tryKeyChain_in_store service self index h) = Normal (Fulfilled l) ->
  carries_encryptedXprv
    (deref (store_after (tryKeyChain_in_store service self index h)) l)
  = Some true.
Proof.
  remember (keychain_count self - index) as n eqn:measure.
  revert index h measure.
  induction n as [n IH] using lt_wf_ind; intros index h measure.
  rewrite tryKeyChain_in_store_body.
  destruct (exhausted self index) eqn:more; [discriminate|].
  apply exhausted_false_lt in more.
  destruct (get_prop (keychain_at self index) "xpub") as [xpub|]; [|discriminate].
  run_in.
  destruct (service _ h) as [[[keychain|e]|e] h1]; cbn [fst snd];
    try discriminate.
  unfold carries_encryptedXprv.
  destruct (get_prop (deref h1 keychain) "encryptedXprv") as [e|] eqn:Hread;
    cbn [fst snd]; [|discriminate].
  destruct (truthy e) eqn:Hpresent; cbn [fst snd].
  - intros [= <-]. rewrite Hread, Hpresent. reflexivity.
  - specialize (IH (keychain_count self - (index + 1)) ltac:(lia) (index + 1)
                  h1 eq_refl).
    unfold outcome, store_after, carries_encryptedXprv in IH.
    destruct (tryKeyChain_in_store service self (index + 1) h1)
      as [[[[l'|e']|e'] h'] t]; cbn [fst snd] in *; try discriminate.
    intros [= <-]. apply IH. reflexivity.
Qed.

Lemma getEncryptedUserKeychain_in_store_tryKeyChain
      (service : KeychainService) (self : Wallet) (params : value) (h : store) :
  getEncryptedUserKeychain_in_store service self params h
  = tryKeyChain_in_store service self 0 h.
Proof.
  unfold getEncryptedUserKeychain_in_store. run_in. simpl.
  destruct (tryKeyChain_in_store service self 0 h) as [[c h'] t]. reflexivity.
Qed.

Lemma deref_in_range (h : store) (l : location) :
  carries_encryptedXprv (deref h l) = Some true -> l < List.length h.
Proof.
  intros Hk. destruct (Nat.lt_ge_cases l (List.length h)) as [Hl|Hl]; [exact Hl|].
  unfold deref in Hk. rewrite (nth_overflow h VUndefined Hl) in Hk. discriminate.
Qed.

Lemma deref_replace (h : store) (l : location) (record : value) :
  l < List.length h -> deref (replace l record h) l = record.
Proof.
  unfold deref. revert l. induction h as [|first h IH]; intros [|l] Hl;
    simpl in *; try lia; [reflexivity|].
  apply IH. lia.
Qed.

Lemma firstn_replace (h : store) (l : location) (record : value) (n : nat) :
  n <= l -> firstn n (replace l record h) = firstn n h.
Proof.
  revert l n. induction h as [|first h IH]; intros [|l] [|n] Hn;
    simpl in *; try lia; try reflexivity.
  rewrite IH by lia. reflexivity.
Qed.



(** The first continuation on the store: it does what it does on the
    keychain the location holds, and leaves the store as it was but for the
    key it has put into that keychain. *)
Lemma decryptAndCreate_in_store_run (builder : TransactionBuilder) (self : Wallet)
      (params : value) (l : location) (h : store) :
  carries_encryptedXprv (deref h l) = Some true ->
  decryptAndCreate_in_store builder self (or_empty params) l h
  = ((fst (decryptAndCreate builder self (or_empty params) (deref h l)),
      match decrypt (bitgo self) (secret_of params (deref h l)) with
      | Normal xprv => replace l (unlocked (deref h l) xprv) h
      | Throw _ => h
      end),
     snd (decryptAndCreate builder self (or_empty params) (deref h l))).
Proof.
  intros Hk. pose proof (deref_in_range h l Hk) as Hl.
  destruct (get_prop_encrypted _ Hk) as (Hread & _ & Hset).
  destruct (decrypt (bitgo self) (secret_of params (deref h l))) as [xprv|e]
    eqn:Hopen.
  - rewrite (decryptAndCreate_unlocked builder self params _ xprv Hk Hopen).
    destruct (Hset xprv) as [Hwrite _].
    unfold decryptAndCreate_in_store, createTransaction_in_store.
    run_in. rewrite !get_prop_or_empty, Hread.
    cbv beta iota. fold (secret_of params (deref h l)). rewrite Hopen.
    cbv beta iota. rewrite Hwrite. cbv beta iota.
    cbn [fst snd]. cbv beta. rewrite (deref_replace h l _ Hl).
    fold (assembly_params params (unlocked (deref h l) xprv)).
    reflexivity.
  - rewrite (decryptAndCreate_locked builder self params _ e Hk Hopen).
    unfold decryptAndCreate_in_store.
    run_in. rewrite !get_prop_or_empty, Hread.
    cbv beta iota. fold (secret_of params (deref h l)). rewrite Hopen.
    reflexivity.
Qed.

(** [sendCoins] on the store, with its checks spelled out. *)
Lemma sendCoins_in_store_checks (service : KeychainService)
      (builder : TransactionBuilder) (self : Wallet) (params : value) (h : store) :
  sendCoins_in_store service builder self params h =
  match validateParams (or_empty params) ["address"; "walletPassphrase"] [] with
  | Throw e => ((Throw e, h), [])
  | Normal _ =>
      if negb (typeof (field params "amount") =? "number")
      then ((Throw InvalidAmountError, h), [])
      else if num_le0 (number_of (field params "amount"))
      then ((Throw AmountError, h), [])
      else
        (p <~~ getEncryptedUserKeychain_in_store service self VUndefined ;;
         p <-- then_in p (decryptAndCreate_in_store builder self (or_empty params)) ;;
         let transaction := assigned p in
         p <-- then_in p (fun result => lift (sendAssembled self result)) ;;
         p <-- then_in p (fun result => lift (report transaction result)) ;;
         ret_in (Normal (nodeify p))) h
  end.
Proof.
  unfold sendCoins_in_store. cbv zeta.
  unfold bindC_in at 1. unfold bind_in at 1. unfold ret_in at 1.
  rewrite bind_ret. cbn [fst snd].
  destruct (validateParams (or_empty params) _ _) as [[]|e]; [|reflexivity].
  unfold bindC_in at 1. unfold bind_in at 1. unfold ret_in at 1.
  rewrite bind_ret, get_prop_or_empty. cbn [fst snd].
  destruct (negb _); [reflexivity|].
  destruct (num_le0 _); reflexivity.
Qed.

(** A request that fails the checks leaves the store as it is. *)
Lemma sendCoins_in_store_invalid (service : KeychainService)
      (builder : TransactionBuilder) (self : Wallet) (params : value) (h : store) :
  valid_request params = false ->
  sendCoins_in_store service builder self params h
  = ((fst (sendCoins builder self params), h), snd (sendCoins builder self params)).
Proof.
  intros Hinvalid. rewrite sendCoins_in_store_checks, sendCoins_checks.
  destruct (validateParams (or_empty params) _ _) as [[]|e] eqn:Hreq;
    [|reflexivity].
  destruct (negb _) eqn:Htype; [reflexivity|].
  destruct (num_le0 _) eqn:Hpos; [reflexivity|].
  exfalso. unfold valid_request in Hinvalid.
  destruct (required_present params) eqn:Hpresent.
  - apply negb_false_iff, String.eqb_eq in Htype.
    destruct (field params "amount"); try discriminate.
    simpl in *. rewrite Hpos in Hinvalid. discriminate.
  - destruct (validateParams_never_returns_without params Hpresent) as [e He].
    rewrite He in Hreq. discriminate.
Qed.

(** A spend from the resolver on: what it returns, the store it leaves and
    the calls it makes, given what the resolver did. *)
Lemma sendCoins_in_store_resolved (service : KeychainService)
      (builder : TransactionBuilder) (self : Wallet) (params : value) (h : store)
      (l : location) (h1 : store) (t : list event) :
  valid_request params = true ->
  getEncryptedUserKeychain_in_store service self VUndefined h
  = ((Normal (Fulfilled l), h1), t) ->
  sendCoins_in_store service builder self params h =
  (let created := decryptAndCreate builder self (or_empty params) (deref h1 l) in
   let p := settled (fst created) in
   let sent := then_ p (sendAssembled self) in
   let reported := then_ (fst sent) (report (assigned p)) in
   ((Normal (fst reported),
     match decrypt (bitgo self) (secret_of params (deref h1 l)) with
     | Normal xprv => replace l (unlocked (deref h1 l) xprv) h1
     | Throw _ => h1
     end),
    t ++ snd created ++ snd sent ++ snd reported)).
Proof.
  intros Hvalid Hk.
  pose proof (valid_request_checks _ Hvalid) as (Hreq & Htype & Hpos).
  rewrite sendCoins_in_store_checks, (validateParams_required params Hreq),
    Htype, Hpos.
  cbn [negb String.eqb Ascii.eqb Bool.eqb].
  assert (carries_encryptedXprv (deref h1 l) = Some true) as Hcarries.
  { pose proof (tryKeyChain_in_store_fulfilled service self 0 h l) as Hfound.
    rewrite <- getEncryptedUserKeychain_in_store_tryKeyChain
      with (params := VUndefined) in Hfound.
    rewrite Hk in Hfound. apply Hfound. reflexivity. }
  cbv zeta. run_in. rewrite Hk. cbv beta iota. cbn [fst snd].
  rewrite (decryptAndCreate_in_store_run builder self params l h1 Hcarries).
  destruct (decryptAndCreate builder self (or_empty params) (deref h1 l))
    as [c t1]. cbn [fst snd].
  generalize (match decrypt (bitgo self) (secret_of params (deref h1 l)) with
              | Normal xprv => replace l (unlocked (deref h1 l) xprv) h1
              | Throw _ => h1
              end) as h2.
  intros h2.
  destruct c as [[transaction|e]|e]; cbn [assigned fst snd];
    rewrite ?app_nil_r; try reflexivity.
  destruct (sendAssembled self transaction) as [[[sent|e]|e] t2];
    cbn [fst snd]; rewrite ?app_nil_r; try reflexivity.
  destruct (report transaction sent) as [[q|e] t3];
    cbn [fst snd]; rewrite ?app_nil_r; reflexivity.
Qed.

(** A spend whose resolver returns no keychain ends as the resolver did,
    on the store the resolver left. *)
Lemma sendCoins_in_store_unresolved (service : KeychainService)
      (builder : TransactionBuilder) (self : Wallet) (params : value) (h : store)
      (c : completion (promise location)) (h1 : store) (t : list event) :
  valid_request params = true ->
  getEncryptedUserKeychain_in_store service self VUndefined h = ((c, h1), t) ->
  (forall l, c <> Normal (Fulfilled l)) ->
  sendCoins_in_store service builder self params h = ((erase h1 c, h1), t).
Proof.
  intros Hvalid Hk Hnone.
  pose proof (valid_request_checks _ Hvalid) as (Hreq & Htype & Hpos).
  rewrite sendCoins_in_store_checks, (validateParams_required params Hreq),
    Htype, Hpos.
  cbn [negb String.eqb Ascii.eqb Bool.eqb].
  run_in. rewrite Hk.
  destruct c as [[l|e]|e]; [destruct (Hnone l eq_refl)| |];
    cbn; rewrite ?app_nil_r; reflexivity.
Qed.

Lemma deref_app_new (h : store) (record : value) (more : store) :
  deref ((h ++ [record]) ++ more) (List.length h) = record.
Proof.
  unfold deref. rewrite <- app_assoc. rewrite app_nth2 by lia.
  rewrite Nat.sub_diag. reflexivity.
Qed.

(** With a service that makes a new object of every answer, the resolver
    on the store is the resolver on plain values: it ends the same way, with
    the keychain at the location it returns, and makes the same calls.  It
    adds the records it fetches to the store and touches no other; the
    location it returns is that of a record it fetched. *)
Lemma tryKeyChain_in_store_erases (self : Wallet) (index : nat) (h : store) :
  fst (tryKeyChain self index)
  = erase (store_after
             (tryKeyChain_in_store (fresh_answers (bitgo self)) self index h))
          (outcome
             (tryKeyChain_in_store (fresh_answers (bitgo self)) self index h))
  /\ snd (tryKeyChain self index)
     = calls (tryKeyChain_in_store (fresh_answers (bitgo self)) self index h)
  /\ (exists records,
        store_after
          (tryKeyChain_in_store (fresh_answers (bitgo self)) self index h)
        = h ++ records)
  /\ (forall l,
        outcome (tryKeyChain_in_store (fresh_answers (bitgo self)) self index h)
        = Normal (Fulfilled l) ->
        List.length h <= l).
Proof.
  remember (keychain_count self - index) as n eqn:measure.
  revert index h measure.
  induction n as [n IH] using lt_wf_ind; intros index h measure.
  rewrite tryKeyChain_body, tryKeyChain_in_store_body.
  destruct (exhausted self index) eqn:more.
  { repeat split; try reflexivity.
    - exists []. rewrite app_nil_r. reflexivity.
    - discriminate. }
  apply exhausted_false_lt in more.
  destruct (get_prop (keychain_at self index) "xpub") as [xpub|].
  2:{ repeat split; try reflexivity; try discriminate.
      exists []. rewrite app_nil_r. reflexivity. }
  run_in.
  change (fresh_answers (bitgo self) (VObject [("xpub", xpub)]) h)
    with (match keychains_get (bitgo self) (VObject [("xpub", xpub)]) with
          | Normal (Fulfilled record) =>
              (Normal (Fulfilled (List.length h)), h ++ [record])
          | Normal (Rejected e) => (Normal (Rejected e), h)
          | Throw e => (Throw e, h)
          end).
  destruct (keychains_get (bitgo self) _) as [[record|e]|e]; cbn [fst snd].
  2,3: split; [reflexivity|]; split; [reflexivity|]; split;
       [exists []; rewrite app_nil_r; reflexivity|discriminate].
  pose proof (deref_app_new h record []) as Hnew. rewrite app_nil_r in Hnew.
  rewrite Hnew.
  destruct (get_prop record "encryptedXprv") as [e|]; cbn [fst snd].
  2:{ repeat split; try reflexivity; try discriminate.
      exists [record]. reflexivity. }
  destruct (truthy e); cbn [fst snd erase].
  { rewrite Hnew. split; [reflexivity|]. split; [reflexivity|].
    split; [exists [record]; reflexivity|].
    intros l [= <-]. lia. }
  specialize (IH (keychain_count self - (index + 1)) ltac:(lia) (index + 1)
                (h ++ [record]) eq_refl).
  destruct IH as (Hout & Hcalls & (records & Hstore) & Hloc).
  unfold outcome, store_after, calls in *.
  destruct (tryKeyChain_in_store (fresh_answers (bitgo self)) self (index + 1)
              (h ++ [record]))
    as [[c h'] t]; cbn [fst snd] in *.
  destruct (tryKeyChain self (index + 1)) as [c' t']; cbn [fst snd] in *.
  subst t' c' h'. rewrite !app_nil_r.
  split; [|split; [reflexivity|split]].
  - destruct c as [[l|e']|e']; reflexivity.
  - exists (record :: records). rewrite <- app_assoc. reflexivity.
  - intros l Hl. destruct c as [[l'|e']|e']; try discriminate.
    cbn in Hl. injection Hl as <-.
    specialize (Hloc l' eq_refl). rewrite length_app in Hloc. simpl in Hloc. lia.
Qed.

(** And so is the spend: it ends as the spend on plain values does and makes
    the same calls, whatever the store holds at the start, and it leaves
    the records that were in the store as they were. *)
Lemma sendCoins_in_store_erases (builder : TransactionBuilder) (self : Wallet)
      (params : value) (h : store) :
  outcome (sendCoins_in_store (fresh_answers (bitgo self)) builder self params h)
  = fst (sendCoins builder self params)
  /\ calls (sendCoins_in_store (fresh_answers (bitgo self)) builder self params h)
     = snd (sendCoins builder self params)
  /\ firstn (List.length h)
       (store_after
          (sendCoins_in_store (fresh_answers (bitgo self)) builder self params h))
     = h.
Proof.
  destruct (valid_request params) eqn:Hvalid.
  2:{ rewrite (sendCoins_in_store_invalid _ _ _ _ _ Hvalid).
      repeat split. apply firstn_all. }
  pose proof (tryKeyChain_in_store_erases self 0 h)
    as (Hout & Hcalls & (records & Hgrow) & Hloc).
  rewrite <- getEncryptedUserKeychain_in_store_tryKeyChain
    with (params := VUndefined) in Hout, Hcalls, Hgrow, Hloc.
  rewrite <- getEncryptedUserKeychain_tryKeyChain
    with (params := VUndefined) in Hout, Hcalls.
  unfold outcome, store_after, calls in *.
  assert (firstn (List.length h) (h ++ records) = h) as Hold.
  { rewrite firstn_app, firstn_all, Nat.sub_diag. simpl. apply app_nil_r. }
  destruct (getEncryptedUserKeychain_in_store _ self VUndefined h)
    as [[c h1] t] eqn:Hk. cbn [fst snd] in *. subst h1.
  destruct (getEncryptedUserKeychain self VUndefined) as [c' t'] eqn:Hk'.
  cbn [fst snd] in *. subst c' t'.
  destruct c as [[l|e]|e]; cbn [erase] in Hk'.
  - rewrite (sendCoins_in_store_resolved _ _ _ _ _ _ _ _ Hvalid Hk).
    rewrite (sendCoins_resolved _ _ _ _ _ Hvalid Hk').
    cbv zeta. cbn [fst snd]. repeat split.
    destruct (decrypt _ _); [|exact Hold].
    rewrite (firstn_replace _ _ _ _ (Hloc l eq_refl)). exact Hold.
  - rewrite (sendCoins_in_store_unresolved _ _ _ _ _ _ _ _ Hvalid Hk)
      by discriminate.
    rewrite (sendCoins_unresolved _ _ _ _ _ Hvalid Hk').
    repeat split. exact Hold.
  - rewrite (sendCoins_in_store_unresolved _ _ _ _ _ _ _ _ Hvalid Hk)
      by discriminate.
    rewrite (sendCoins_resolver_throws _ _ _ _ _ Hvalid Hk').
    repeat split. exact Hold.
Qed.






(** ** The read accessors *)

(** A safe integer prints as its digits on every runtime; what a larger
    integer prints as is the runtime's to say. *)
Lemma number_to_string_safe_integer (rt : Runtime) :
  number_to_string rt (Finite 300000000) = "300000000"
  /\ number_to_string rt (Finite (-42)) = "-42"
  /\ number_to_string rt (Finite (inject_Z (2 ^ 53 - 1))) = "9007199254740991"
  /\ number_to_string rt (Finite (inject_Z (2 ^ 64)))
     = finite_to_string rt (inject_Z (2 ^ 64)).
Proof. repeat split. Qed.

(** X15: [addresses] takes a [limit] that is a number.  A limit that is
    falsy, [0] and [NaN] included, is no limit at all: the listing is asked
    for as if no parameter had been given.  A truthy limit that is not a
    number makes [addresses] throw before any request; a truthy number is
    sent as the [limit] of the one request made. *)
Theorem addresses_limit
        (rt : Runtime) (transport : Transport) (self : Wallet) (params : value) :
  (truthy (field params "limit") = false ->
   addresses rt transport self params = addresses rt transport self VUndefined)
  /\ (truthy (field params "limit") = true ->
      typeof (field params "limit") <> "number" ->
      addresses rt transport self params
      = (Throw (Error "invalid limit argument, expecting number"), []))
  /\ (truthy (field params "limit") = true ->
      typeof (field params "limit") = "number" ->
      addresses rt transport self params
      = (get transport
           (Wallet_url rt self (VString "/addresses")
            ++ "?limit=" ++ to_string rt (field params "limit"))%string None,
         [GET (Wallet_url rt self (VString "/addresses")
               ++ "?limit=" ++ to_string rt (field params "limit"))%string None])).
Proof.
  unfold addresses. cbv zeta. cbn [validateParams].
  rewrite !get_prop_or_empty. repeat split.
  - intros ->. reflexivity.
  - intros -> Htype. apply String.eqb_neq in Htype. rewrite Htype. reflexivity.
  - intros -> Htype. rewrite Htype. reflexivity.
Qed.

(** X16: [unspents] looks at [limit] only when [btcLimit] is set.  Without a
    truthy [btcLimit] the request is the one made without parameters: a
    [limit] given alone is neither sent nor checked. *)
Theorem unspents_ignores_limit_without_btcLimit
        (rt : Runtime) (transport : Transport) (self : Wallet) (params : value) :
  truthy (field params "btcLimit") = false ->
  unspents rt transport self params = unspents rt transport self VUndefined.
Proof.
  intros Hgate. unfold unspents. cbv zeta. cbn [validateParams].
  rewrite !get_prop_or_empty, Hgate. reflexivity.
Qed.

Lemma unspents_ignores_limit_without_btcLimit_witness :
  unspents Reading.runtime Reading.transport Scenario.wallet1
    (VObject [("limit", VString "ten")])
  = unspents Reading.runtime Reading.transport Scenario.wallet1 VUndefined.
Proof.
  apply (unspents_ignores_limit_without_btcLimit Reading.runtime
           Reading.transport Scenario.wallet1
           (VObject [("limit", VString "ten")])).
  reflexivity.
Defined.

(** X17: with a truthy [btcLimit], [unspents] wants [limit] to be a number
    and throws 'invalid argument' before any request when it is not; when
    it is, the one request carries [limit * 1e8] as its limit.  The value
    of [btcLimit] itself reaches no request. *)
Theorem unspents_sends_limit_when_btcLimit
        (rt : Runtime) (transport : Transport) (self : Wallet) (params : value) :
  truthy (field params "btcLimit") = true ->
  unspents rt transport self params
  = match field params "limit" with
    | VNumber n =>
        (get transport
           (Wallet_url rt self (VString "/unspents") ++ "?limit="
            ++ number_to_string rt (multiply rt n (Finite 100000000)))%string
           (Some "unspents"),
         [GET (Wallet_url rt self (VString "/unspents") ++ "?limit="
               ++ number_to_string rt (multiply rt n (Finite 100000000)))%string
            (Some "unspents")])
    | _ => (Throw (Error "invalid argument"), [])
    end.
Proof.
  intros Hgate. unfold unspents. cbv zeta. cbn [validateParams].
  rewrite !get_prop_or_empty, Hgate.
  destruct (field params "limit"); reflexivity.
Qed.

Lemma unspents_sends_limit_when_btcLimit_witness :
  unspents Reading.runtime Reading.transport Scenario.wallet1
    (VObject [("btcLimit", VNumber (Finite 2))])
  = (Throw (Error "invalid argument"), [])
  /\ unspents Reading.runtime Reading.transport Scenario.wallet1
       (VObject [("btcLimit", VBoolean true); ("limit", VNumber (Finite 3))])
     = (Normal (Fulfilled Reading.listing),
        [GET "https://test.bitgo.com/api/v1/wallet/2Mxyz.../unspents?limit=300000000"
           (Some "unspents")]).
Proof.
  split.
  - apply (unspents_sends_limit_when_btcLimit Reading.runtime Reading.transport
             Scenario.wallet1 (VObject [("btcLimit", VNumber (Finite 2))])).
    reflexivity.
  - apply (unspents_sends_limit_when_btcLimit Reading.runtime Reading.transport
             Scenario.wallet1
             (VObject [("btcLimit", VBoolean true); ("limit", VNumber (Finite 3))])).
    reflexivity.
Defined.

(** [createAddress] posts an empty body, once, to the address path of the
    wallet on the chain given; a chain that is missing or falsy is chain
    [0]. *)
Lemma createAddress_default_chain
      (rt : Runtime) (self : Wallet) (params : value) :
  truthy (field params "chain") = false ->
  createAddress rt self params
  = (post (bitgo self) (Wallet_url rt self (VString "/address/0")) (VObject []),
     [POST (Wallet_url rt self (VString "/address/0")) (VObject [])]).
Proof.
  intros Hchain. unfold createAddress. cbv zeta. cbn [validateParams].
  rewrite !get_prop_or_empty, Hchain. reflexivity.
Qed.

(** [transactions] and [delete] do not look at their parameters. *)
Lemma transactions_and_delete_ignore_params
      (rt : Runtime) (transport : Transport) (self : Wallet) (params : value) :
  transactions rt transport self params
  = (get transport (Wallet_url rt self (VString "/tx")) None,
     [GET (Wallet_url rt self (VString "/tx")) None])
  /\ delete rt transport self params
     = (del transport (Wallet_url rt self (VString "")),
        [DELETE (Wallet_url rt self (VString ""))]).
Proof.
  split; reflexivity.
Qed.
